(** * FacebookDataProcessor: flattening and numeric coercion of insights rows

    A shallow embedding of [src/data_processor.py]
    ([FacebookDataProcessor.flatten_insights], [process_insights] and
    [convert_numeric_fields]) together with the properties of the
    specification that concern them.

    Python values are an inductive type of JSON-like data, a [dict] is an
    association list in insertion order (Python dictionaries keep it), and an
    exception is the [Raise] branch of a result type.  Strings are ASCII
    strings, which is what the field names of the reporting API are. *)

From Stdlib Require Import String Ascii List ZArith Bool.
From Stdlib Require Import Floats.PrimFloat Uint63.
From Stdlib Require DecimalString.
Import ListNotations.
Open Scope string_scope.
Open Scope list_scope.

(* ================================================================= *)
(** ** Values, exceptions and the result type *)

#[warning="-register-all"]
Inductive value : Type :=
| VNone
| VBool (b : bool)
| VInt (n : Z)
| VFloat (f : float)
| VStr (s : string)
| VList (l : list value)
| VDict (d : list (string * value)).

(** A Python [dict] with string keys, in insertion order. *)
Definition dict : Type := list (string * value).

Inductive exn : Type :=
| AttributeError
| TypeError
| ValueError.

Inductive result (A : Type) : Type :=
| Ok (a : A)
| Raise (e : exn).

Arguments Ok {A} a.
Arguments Raise {A} e.

Definition bind {A B : Type} (m : result A) (k : A -> result B) : result B :=
  match m with
  | Ok a => k a
  | Raise e => Raise e
  end.

Notation "x <- m ;; k" := (bind m (fun x => k))
  (at level 61, m at next level, right associativity).

(** A [for] loop whose body may raise: the accumulator is threaded through
    the iterations and the first exception ends the loop. *)
Fixpoint for_each {A S : Type} (body : S -> A -> result S) (xs : list A) (s : S)
  : result S :=
  match xs with
  | [] => Ok s
  | x :: xs' => s' <- body s x ;; for_each body xs' s'
  end.

(* ================================================================= *)
(** ** Dictionaries *)

Module Dict.

Definition keys (d : dict) : list string := map fst d.

(** [d.get(k)] *)
Fixpoint lookup (k : string) (d : dict) : option value :=
  match d with
  | [] => None
  | (k', v) :: d' => if String.eqb k k' then Some v else lookup k d'
  end.

(** [d[k] = v]: an existing key keeps its position, a new key goes last. *)
Fixpoint set (d : dict) (k : string) (v : value) : dict :=
  match d with
  | [] => [(k, v)]
  | (k', v') :: d' =>
      if String.eqb k k' then (k', v) :: d' else (k', v') :: set d' k v
  end.

(** [d.update(ps)]: the pairs are inserted one after the other. *)
Definition update (d : dict) (ps : list (string * value)) : dict :=
  fold_left (fun d kv => set d (fst kv) (snd kv)) ps d.

(** The dictionary a display [{k1: v1, k2: v2, ...}] builds. *)
Definition of_pairs (ps : list (string * value)) : dict := update [] ps.

(** The invariant of every Python dictionary: no key occurs twice. *)
Definition wf (d : dict) : Prop := NoDup (keys d).

End Dict.

(* ================================================================= *)
(** ** The Python built-ins the processor uses *)

(** [isinstance(v, list)] and [isinstance(v, dict)] *)
Definition is_list (v : value) : bool :=
  match v with VList _ => true | _ => false end.

Definition is_dict (v : value) : bool :=
  match v with VDict _ => true | _ => false end.

(** [v.get(k, default)]: only a [dict] has the method. *)
Definition py_get (v : value) (k : string) (default : value) : result value :=
  match v with
  | VDict d =>
      match Dict.lookup k d with
      | Some x => Ok x
      | None => Ok default
      end
  | _ => Raise AttributeError
  end.

(** [v.items()] *)
Definition py_items (v : value) : result (list (string * value)) :=
  match v with
  | VDict d => Ok d
  | _ => Raise AttributeError
  end.

(** [x in types] for a list of strings: a value that is not a string is
    equal to none of them. *)
Definition py_in (x : value) (types : list string) : bool :=
  match x with
  | VStr s => existsb (String.eqb s) types
  | _ => false
  end.

(** [types is None or x in types] *)
Definition passes (types : option (list string)) (x : value) : bool :=
  match types with
  | None => true
  | Some l => py_in x l
  end.

(** Truth value of an object, as [if not data] tests it. *)
Definition truthy (v : value) : bool :=
  match v with
  | VNone => false
  | VBool b => b
  | VInt n => negb (Z.eqb n 0)
  | VFloat f => negb (PrimFloat.eqb f 0%float)
  | VStr s => negb (String.eqb s "")
  | VList l => match l with [] => false | _ => true end
  | VDict d => match d with [] => false | _ => true end
  end.

(** The items a [for] loop over [v] visits: the elements of a list, the keys
    of a dictionary, the characters of a string; other values are not
    iterable. *)
Definition py_iter (v : value) : result (list value) :=
  match v with
  | VList l => Ok l
  | VDict d => Ok (map (fun kv => VStr (fst kv)) d)
  | VStr s => Ok (map (fun c => VStr (String c "")) (list_ascii_of_string s))
  | _ => Raise TypeError
  end.

(** [str.lower()] on ASCII strings. *)
Definition lower_ascii (c : ascii) : ascii :=
  let n := nat_of_ascii c in
  if (65 <=? n)%nat && (n <=? 90)%nat then ascii_of_nat (n + 32) else c.

Fixpoint lower (s : string) : string :=
  match s with
  | EmptyString => EmptyString
  | String c s' => String (lower_ascii c) (lower s')
  end.

(** [pat in s] for strings. *)
Fixpoint contains (pat s : string) : bool :=
  String.prefix pat s ||
  match s with
  | EmptyString => false
  | String _ s' => contains pat s'
  end.

(* ================================================================= *)
(** ** Instances of the open built-ins, for running the examples *)

(** A placeholder for the text of floats, lists and dictionaries; the
    examples format strings only. *)
Definition sample_repr (v : value) : string := "<object>".

Definition digit_of (c : ascii) : option Z :=
  let n := nat_of_ascii c in
  if (48 <=? n)%nat && (n <=? 57)%nat then Some (Z.of_nat (n - 48)) else None.

Fixpoint digits_value (s : string) (acc : Z) : option Z :=
  match s with
  | EmptyString => Some acc
  | String c s' =>
      match digit_of c with
      | Some d => digits_value s' (10 * acc + d)
      | None => None
      end
  end.

Fixpoint split_dot (s : string) : string * option string :=
  match s with
  | EmptyString => (EmptyString, None)
  | String c s' =>
      if Ascii.eqb c "."%char then (EmptyString, Some s')
      else let (a, b) := split_dot s' in (String c a, b)
  end.

Definition float_of_Z (z : Z) : float := PrimFloat.of_uint63 (Uint63.of_Z z).

(** [float(s)] on unsigned decimal numerals of at most fifteen digits
    ([digits] or [digits.digits]), where the quotient below is the correctly
    rounded double; every other string is answered with [None]. *)
Definition decimal_float (s : string) : option float :=
  let (ip, fp) := split_dot s in
  let fp := match fp with Some f => f | None => EmptyString end in
  if (String.length ip =? 0)%nat
     || (15 <? String.length ip + String.length fp)%nat
  then None
  else
    match digits_value (ip ++ fp) 0 with
    | Some m =>
        Some (PrimFloat.div (float_of_Z m)
                (float_of_Z (10 ^ Z.of_nat (String.length fp))))
    | None => None
    end.

(** A response envelope of two rows, and a flat batch. *)
Definition sample_rows : list value :=
  [ VDict [("spend", VStr "10"); ("date_stop", VStr "2025-01-01")];
    VDict [("actions",
            VList [VDict [("action_type", VStr "purchase");
                          ("value", VStr "5")]])] ].

Definition sample_response : dict :=
  [("data", VList sample_rows); ("paging", VDict [])].

Definition sample_batch : list dict :=
  [ [("spend", VStr "100.50"); ("campaign_name", VStr "100")];
    [("CPC", VStr "N/A"); ("clicks", VInt 3)] ].

Definition sample_scalars : dict :=
  [ ("campaign_name", VStr "My Campaign"); ("date_stop", VStr "2025-01-01");
    ("spend", VStr "10"); ("actions", VInt 3) ].

(** A row in which a scalar field and an entry of [actions] meet on a key,
    and a row with a nested [date] object. *)
Definition sample_colliding : dict :=
  [ ("action_purchase", VStr "1"); ("spend", VStr "10");
    ("actions",
     VList [VDict [("action_type", VStr "purchase"); ("value", VStr "5")];
            VDict [("action_type", VStr "lead"); ("value", VStr "12")]]) ].

Definition sample_dated : dict :=
  [ ("date", VDict [("start", VStr "2025-01-01"); ("stop", VStr "2025-01-31")]);
    ("date_stop", VStr "2025-01-31") ].

(* ================================================================= *)
(** ** The processor *)

Section Processor.

(** Two built-ins are left open: the text Python prints for a float, a
    list or a dictionary inside an f-string, and the parser behind
    [float(s)], which answers [None] where Python raises [ValueError]. *)
Variable py_repr : value -> string.
Variable float_of_string : string -> option float.

(** What an f-string field [{v}] expands to. *)
Definition py_format (v : value) : string :=
  match v with
  | VStr s => s
  | VNone => "None"
  | VBool true => "True"
  | VBool false => "False"
  | VInt n => DecimalString.NilZero.string_of_int (Z.to_int n)
  | VFloat _ | VList _ | VDict _ => py_repr v
  end.

(** [float(s)] for a string [s]. *)
Definition py_float (s : string) : result float :=
  match float_of_string s with
  | Some f => Ok f
  | None => Raise ValueError
  end.

(** *** flatten_insights *)

(** Body of the loops over a list-shaped [actions], [action_values],
    [conversions] or [conversion_values]: the entry's type and value are
    read with their defaults and written under [prefix] when the type
    passes the filter. *)
Definition flatten_entry (prefix : string) (types : option (list string))
           (flat : dict) (action : value) : result dict :=
  action_type <- py_get action "action_type" (VStr "unknown") ;;
  action_val <- py_get action "value" (VInt 0) ;;
  if passes types action_type
  then Ok (Dict.set flat (prefix ++ py_format action_type) action_val)
  else Ok flat.

(** Body of the loops over a dict-shaped [conversions] or
    [conversion_values]. *)
Definition flatten_pair (prefix : string) (types : option (list string))
           (flat : dict) (kv : string * value) : result dict :=
  let (conv_type, conv_val) := kv in
  if passes types (VStr conv_type)
  then Ok (Dict.set flat (prefix ++ conv_type) conv_val)
  else Ok flat.

(** Body of the loop over [video_thruplay_watched_actions]: no filter. *)
Definition flatten_video (flat : dict) (video_action : value) : result dict :=
  video_action_type <- py_get video_action "action_type" (VStr "unknown") ;;
  video_val <- py_get video_action "value" (VInt 0) ;;
  Ok (Dict.set flat
        ("video_thruplay_watched_actions_" ++ py_format video_action_type)
        video_val).

(** Body of the loop over a nested dictionary. *)
Definition flatten_nested (key : string) (flat : dict) (kv : string * value)
  : result dict :=
  let (sub_key, sub_value) := kv in
  Ok (Dict.set flat (key ++ "_" ++ sub_key) sub_value).

Definition list_of (v : value) : list value :=
  match v with VList l => l | _ => [] end.

Definition dict_of (v : value) : dict :=
  match v with VDict d => d | _ => [] end.

(** One iteration of [for key, value in item.items()]: the chain of
    [if]/[elif] tests in the order of the source. *)
Definition flatten_field (action_types action_value_types conversion_types
                            : option (list string))
           (flat : dict) (kv : string * value) : result dict :=
  let (key, value) := kv in
  if (key =? "actions") && is_list value then
    for_each (flatten_entry "action_" action_types) (list_of value) flat
  else if (key =? "action_values") && is_list value then
    for_each (flatten_entry "action_value_" action_value_types)
             (list_of value) flat
  else if (key =? "conversions") && (is_list value || is_dict value) then
    if is_list value then
      for_each (flatten_entry "conversion_" conversion_types)
               (list_of value) flat
    else
      for_each (flatten_pair "conversion_" conversion_types)
               (dict_of value) flat
  else if (key =? "conversion_values") && (is_list value || is_dict value) then
    if is_list value then
      for_each (flatten_entry "conversion_value_" conversion_types)
               (list_of value) flat
    else
      for_each (flatten_pair "conversion_value_" conversion_types)
               (dict_of value) flat
  else if (key =? "video_thruplay_watched_actions") && is_list value then
    for_each flatten_video (list_of value) flat
  else if is_dict value then
    for_each (flatten_nested key) (dict_of value) flat
  else if key =? "date_stop" then
    Ok flat
  else
    Ok (Dict.set flat key value).

Definition flatten_insights (item : value)
           (action_types action_value_types conversion_types
              : option (list string)) : result dict :=
  items <- py_items item ;;
  for_each (flatten_field action_types action_value_types conversion_types)
           items [].

(** *** process_insights *)

Definition process_insights (response : value)
           (action_types action_value_types conversion_types
              : option (list string)) : result (list dict) :=
  data <- py_get response "data" (VList []) ;;
  if negb (truthy data) then Ok []
  else
    items <- py_iter data ;;
    for_each
      (fun flat_data item =>
         flat_item <- flatten_insights item action_types action_value_types
                                       conversion_types ;;
         Ok (flat_data ++ [flat_item]))
      items [].

(** *** convert_numeric_fields *)

Definition numeric_patterns : list string :=
  [ "spend"; "impressions"; "clicks"; "reach"; "frequency";
    "ctr"; "cpc"; "cpm"; "conversions"; "cost"; "action_";
    "value"; "video"; "budget" ].

(** [any(pattern in key.lower() for pattern in numeric_patterns)] *)
Definition matches_numeric (key : string) : bool :=
  existsb (fun pattern => contains pattern (lower key)) numeric_patterns.

(** The [try] block with its [except (ValueError, TypeError)] handler. *)
Definition convert_field (converted : dict) (kv : string * value)
  : result dict :=
  let (key, value) := kv in
  if matches_numeric key then
    match
      match value with
      | VStr s => f <- py_float s ;; Ok (Dict.set converted key (VFloat f))
      | _ => Ok (Dict.set converted key value)
      end
    with
    | Ok converted' => Ok converted'
    | Raise ValueError | Raise TypeError => Ok (Dict.set converted key value)
    | Raise e => Raise e
    end
  else Ok (Dict.set converted key value).

Definition convert_numeric_fields (data : value) : result (list dict) :=
  items <- py_iter data ;;
  for_each
    (fun result item =>
       fields <- py_items item ;;
       converted <- for_each convert_field fields [] ;;
       Ok (result ++ [converted]))
    items [].

(** *** Notions of the specification *)

(** The five collection categories, with the field each one lives under,
    the prefix of the keys it emits and the filter that applies to it. *)
Inductive category : Type :=
| Actions
| ActionValues
| Conversions
| ConversionValues
| VideoThruplay.

Definition category_key (c : category) : string :=
  match c with
  | Actions => "actions"
  | ActionValues => "action_values"
  | Conversions => "conversions"
  | ConversionValues => "conversion_values"
  | VideoThruplay => "video_thruplay_watched_actions"
  end.

Definition category_prefix (c : category) : string :=
  match c with
  | Actions => "action_"
  | ActionValues => "action_value_"
  | Conversions => "conversion_"
  | ConversionValues => "conversion_value_"
  | VideoThruplay => "video_thruplay_watched_actions_"
  end.

Definition category_filter (c : category)
           (action_types action_value_types conversion_types
              : option (list string)) : option (list string) :=
  match c with
  | Actions => action_types
  | ActionValues => action_value_types
  | Conversions | ConversionValues => conversion_types
  | VideoThruplay => None
  end.

(** The type and the value of an ActionEntry, with their defaults. *)
Definition entry_type (e : dict) : value :=
  match Dict.lookup "action_type" e with
  | Some t => t
  | None => VStr "unknown"
  end.

Definition entry_value (e : dict) : value :=
  match Dict.lookup "value" e with
  | Some v => v
  | None => VInt 0
  end.

(** What one entry of a list-shaped collection does to the output. *)
Definition emit_entry (prefix : string) (types : option (list string))
           (flat : dict) (e : dict) : dict :=
  if passes types (entry_type e)
  then Dict.set flat (prefix ++ py_format (entry_type e)) (entry_value e)
  else flat.

(** The list-shaped entry [{action_type: t, value: v}]. *)
Definition entry_dict (tv : string * value) : dict :=
  [("action_type", VStr (fst tv)); ("value", snd tv)].

Definition entry_of (tv : string * value) : value := VDict (entry_dict tv).

(** What one pair of a mapping-shaped collection does to the output. *)
Definition emit_pair (prefix : string) (types : option (list string))
           (flat : dict) (tv : string * value) : dict :=
  if passes types (VStr (fst tv))
  then Dict.set flat (prefix ++ fst tv) (snd tv)
  else flat.

(** The pairs a mapping-shaped collection emits: those passing the filter,
    renamed with the prefix. *)
Definition emitted (prefix : string) (types : option (list string))
           (d : dict) : dict :=
  map (fun tv : string * value => ((prefix ++ fst tv)%string, snd tv))
      (filter (fun tv => passes types (VStr (fst tv))) d).

(** The pairs a nested mapping under [key] emits. *)
Definition nested (key : string) (d : dict) : dict :=
  map (fun kv : string * value => ((key ++ "_" ++ fst kv)%string, snd kv)) d.

(** A scalar: neither a list nor a mapping. *)
Definition is_scalar (v : value) : bool :=
  negb (is_list v || is_dict v).

Definition all_scalar (d : dict) : bool :=
  forallb (fun kv => is_scalar (snd kv)) d.

Definition without_key (k : string) (d : dict) : dict :=
  filter (fun kv : string * value => negb (fst kv =? k)) d.

(** Records on which [flatten_insights] has no exception to raise: a
    mapping in which a list under one of the five collection keys holds
    mappings only. *)
Definition is_collection_key (key : string) : bool :=
  (key =? "actions") || (key =? "action_values") || (key =? "conversions")
  || (key =? "conversion_values") || (key =? "video_thruplay_watched_actions").

Definition well_formed_field (kv : string * value) : bool :=
  if is_collection_key (fst kv) && is_list (snd kv)
  then forallb is_dict (list_of (snd kv))
  else true.

Definition well_formed_record (item : value) : bool :=
  is_dict item && forallb well_formed_field (dict_of item).

(** Envelopes on which [process_insights] has no exception to raise. *)
Definition well_formed_response (response : value) : bool :=
  match response with
  | VDict r =>
      match Dict.lookup "data" r with
      | None => true
      | Some data =>
          negb (truthy data)
          || (is_list data && forallb well_formed_record (list_of data))
      end
  | _ => false
  end.

(** The coercion of one field, in the words of the specification. *)
Definition is_candidate (key : string) : Prop :=
  exists word, In word numeric_patterns /\
  exists pre mid post : string,
    key = (pre ++ mid ++ post)%string /\ lower mid = word.

Definition coerce (kv : string * value) : string * value :=
  let (key, value) := kv in
  if matches_numeric key then
    match value with
    | VStr s =>
        match float_of_string s with
        | Some f => (key, VFloat f)
        | None => (key, VStr s)
        end
    | _ => (key, value)
    end
  else (key, value).

(** *** The output as a list of writes *)

(** The category a field key designates, if any. *)
Definition category_of (key : string) : option category :=
  if key =? "actions" then Some Actions
  else if key =? "action_values" then Some ActionValues
  else if key =? "conversions" then Some Conversions
  else if key =? "conversion_values" then Some ConversionValues
  else if key =? "video_thruplay_watched_actions" then Some VideoThruplay
  else None.

(** The pairs the entries of a list-shaped collection write, in order. *)
Definition entry_writes (prefix : string) (types : option (list string))
           (es : list dict) : list (string * value) :=
  map (fun e : dict =>
         ((prefix ++ py_format (entry_type e))%string, entry_value e))
      (filter (fun e : dict => passes types (entry_type e)) es).

(** The field as it is passed through: nothing for [date_stop]. *)
Definition passthrough (key : string) (v : value) : list (string * value) :=
  if key =? "date_stop" then [] else [(key, v)].

(** The pairs one field of a record writes to the output, in order. *)
Definition field_writes
           (action_types action_value_types conversion_types
              : option (list string))
           (kv : string * value) : list (string * value) :=
  let (key, v) := kv in
  match v with
  | VList l =>
      match category_of key with
      | Some c =>
          entry_writes (category_prefix c)
            (category_filter c action_types action_value_types
                             conversion_types)
            (map dict_of l)
      | None => passthrough key v
      end
  | VDict d =>
      if key =? "conversions" then emitted "conversion_" conversion_types d
      else if key =? "conversion_values"
           then emitted "conversion_value_" conversion_types d
           else nested key d
  | _ => passthrough key v
  end.

(** *** The insights tool of the server *)

(** A list of records as the Python list it is. *)
Definition rows (records : list dict) : value := VList (map VDict records).

(** [get_account_insights] of [server.py], from the response of the client
    on: the response is flattened and coerced, or its [data] is returned
    raw. *)
Definition get_account_insights (response : value) (flatten_actions : bool)
  : result value :=
  if flatten_actions then
    flattened <- process_insights response None None None ;;
    converted <- convert_numeric_fields (rows flattened) ;;
    Ok (rows converted)
  else py_get response "data" (VList []).

(* ================================================================= *)
(** ** Loops *)

Lemma for_each_app {A S : Type} (body : S -> A -> result S) (xs ys : list A) :
  forall s,
    for_each body (xs ++ ys) s = s' <- for_each body xs s ;; for_each body ys s'.
Proof.
  induction xs as [|x xs IH]; intros s; simpl; [reflexivity|].
  destruct (body s x) as [s1|e]; simpl; [apply IH | reflexivity].
Qed.

(** A loop whose body raises on none of its items is a fold. *)
Lemma for_each_pure {A S : Type} (body : S -> A -> result S)
      (step : S -> A -> S) (xs : list A) :
  (forall s x, In x xs -> body s x = Ok (step s x)) ->
  forall s, for_each body xs s = Ok (fold_left step xs s).
Proof.
  induction xs as [|x xs IH]; intros Hbody s; simpl; [reflexivity|].
  rewrite Hbody by (left; reflexivity). simpl.
  apply IH. intros s' y Hy. apply Hbody. right. exact Hy.
Qed.

(* ================================================================= *)
(** ** Facts about dictionaries *)

Lemma dict_lookup_absent (d : dict) (k : string) :
  ~ In k (Dict.keys d) -> Dict.lookup k d = None.
Proof.
  induction d as [|[k' v'] d IH]; simpl; intros Hk; [reflexivity|].
  destruct (String.eqb_spec k k') as [->|Hne].
  - exfalso. apply Hk. left. reflexivity.
  - apply IH. intros Hin. apply Hk. right. exact Hin.
Qed.

Lemma dict_lookup_set_eq (d : dict) (k : string) (v : value) :
  Dict.lookup k (Dict.set d k v) = Some v.
Proof.
  induction d as [|[k' v'] d IH]; simpl.
  - rewrite String.eqb_refl. reflexivity.
  - destruct (String.eqb_spec k k') as [->|Hne]; simpl.
    + rewrite String.eqb_refl. reflexivity.
    + apply String.eqb_neq in Hne. rewrite Hne. exact IH.
Qed.

Lemma dict_lookup_set_neq (d : dict) (k k' : string) (v : value) :
  k <> k' -> Dict.lookup k (Dict.set d k' v) = Dict.lookup k d.
Proof.
  intros Hne. induction d as [|[k1 v1] d IH]; simpl.
  - apply String.eqb_neq in Hne. rewrite Hne. reflexivity.
  - destruct (String.eqb_spec k' k1) as [->|Hne1]; simpl.
    + apply String.eqb_neq in Hne. rewrite Hne. reflexivity.
    + rewrite IH. reflexivity.
Qed.

Lemma dict_set_fresh (d : dict) (k : string) (v : value) :
  ~ In k (Dict.keys d) -> Dict.set d k v = d ++ [(k, v)].
Proof.
  induction d as [|[k' v'] d IH]; simpl; intros Hk; [reflexivity|].
  destruct (String.eqb_spec k k') as [->|Hne].
  - exfalso. apply Hk. left. reflexivity.
  - rewrite IH; [reflexivity|]. intros Hin. apply Hk. right. exact Hin.
Qed.

Lemma dict_keys_set (d : dict) (k : string) (v : value) (x : string) :
  In x (Dict.keys (Dict.set d k v)) <-> In x (Dict.keys d) \/ x = k.
Proof.
  induction d as [|[k' v'] d IH]; simpl.
  - intuition congruence.
  - destruct (String.eqb_spec k k') as [->|Hne]; simpl.
    + intuition congruence.
    + rewrite IH. intuition congruence.
Qed.

Lemma dict_set_wf (d : dict) (k : string) (v : value) :
  Dict.wf d -> Dict.wf (Dict.set d k v).
Proof.
  unfold Dict.wf. induction d as [|[k' v'] d IH]; simpl; intros Hwf.
  - constructor; [intros [] | constructor].
  - inversion Hwf as [|? ? Hnin Hd]; subst.
    destruct (String.eqb_spec k k') as [->|Hne]; simpl.
    + constructor; assumption.
    + constructor; [|apply IH; exact Hd].
      intros Hin. apply (dict_keys_set d k v k') in Hin.
      destruct Hin as [Hin|Heq]; [apply Hnin; exact Hin | congruence].
Qed.

Lemma dict_set_set (d : dict) (k : string) (v w : value) :
  Dict.set (Dict.set d k v) k w = Dict.set d k w.
Proof.
  induction d as [|[k' v'] d IH]; simpl.
  - rewrite String.eqb_refl. reflexivity.
  - destruct (String.eqb_spec k k') as [->|Hne]; simpl.
    + rewrite String.eqb_refl. reflexivity.
    + apply String.eqb_neq in Hne. rewrite Hne, IH. reflexivity.
Qed.

(** Writing a key that is already there commutes with writing another key:
    neither write changes the order of the keys seen by the other. *)
Lemma dict_set_comm (d : dict) (k k' : string) (a b : value) :
  k <> k' -> In k (Dict.keys d) ->
  Dict.set (Dict.set d k' b) k a = Dict.set (Dict.set d k a) k' b.
Proof.
  intros Hne. induction d as [|[k1 v1] d IH]; simpl; intros Hin; [contradiction|].
  destruct (String.eqb_spec k' k1) as [->|Hne1]; simpl.
  - apply String.eqb_neq in Hne. rewrite Hne. simpl.
    rewrite String.eqb_refl. reflexivity.
  - destruct (String.eqb_spec k k1) as [->|Hne2]; simpl.
    + apply String.eqb_neq in Hne1. rewrite Hne1. reflexivity.
    + apply String.eqb_neq in Hne1. rewrite Hne1.
      rewrite IH; [reflexivity|].
      destruct Hin as [Heq|Hin]; [congruence | exact Hin].
Qed.

(** Pairs with fresh, distinct keys are appended in their order. *)
Lemma dict_update_fresh (l : list (string * value)) :
  forall d, NoDup (Dict.keys (d ++ l)) -> Dict.update d l = d ++ l.
Proof.
  induction l as [|[k v] l IH]; intros d Hnd; simpl.
  - rewrite app_nil_r. reflexivity.
  - unfold Dict.update in *. simpl.
    assert (Hk : ~ In k (Dict.keys d)).
    { unfold Dict.keys in *. rewrite map_app in Hnd. simpl in Hnd.
      apply NoDup_remove_2 in Hnd. intros Hin. apply Hnd.
      apply in_or_app. left. exact Hin. }
    rewrite (dict_set_fresh d k v Hk).
    rewrite IH; rewrite <- app_assoc; simpl; [reflexivity | exact Hnd].
Qed.

Lemma dict_lookup_update (l : list (string * value)) (k : string) :
  Dict.wf l ->
  forall d,
    Dict.lookup k (Dict.update d l) =
    match Dict.lookup k l with
    | Some v => Some v
    | None => Dict.lookup k d
    end.
Proof.
  unfold Dict.wf, Dict.update.
  induction l as [|[k1 v1] l IH]; intros Hwf d; simpl; [reflexivity|].
  inversion Hwf as [|? ? Hnin Hl]; subst.
  rewrite (IH Hl).
  destruct (String.eqb_spec k k1) as [->|Hne].
  - rewrite (dict_lookup_absent l k1 Hnin). apply dict_lookup_set_eq.
  - rewrite (dict_lookup_set_neq d k k1 v1 Hne). reflexivity.
Qed.

(* ================================================================= *)
(** ** The loops of [flatten_insights] as folds *)

Lemma append_inj_l (p a b : string) : (p ++ a = p ++ b)%string -> a = b.
Proof.
  induction p as [|c p IH]; simpl; intros H; [exact H|].
  apply IH. congruence.
Qed.

Lemma flatten_entry_dict (prefix : string) (types : option (list string))
      (flat e : dict) :
  flatten_entry prefix types flat (VDict e) = Ok (emit_entry prefix types flat e).
Proof.
  unfold flatten_entry, emit_entry, entry_type, entry_value, py_get.
  destruct (Dict.lookup "action_type" e), (Dict.lookup "value" e); simpl;
    match goal with |- context [passes ?t ?x] => destruct (passes t x) end;
    reflexivity.
Qed.

Lemma flatten_video_dict (flat e : dict) :
  flatten_video flat (VDict e)
  = Ok (emit_entry "video_thruplay_watched_actions_" None flat e).
Proof.
  unfold flatten_video, emit_entry, entry_type, entry_value, py_get.
  destruct (Dict.lookup "action_type" e), (Dict.lookup "value" e); reflexivity.
Qed.

Lemma flatten_entries_ok (prefix : string) (types : option (list string))
      (es : list dict) (flat : dict) :
  for_each (flatten_entry prefix types) (map VDict es) flat
  = Ok (fold_left (emit_entry prefix types) es flat).
Proof.
  revert flat. induction es as [|e es IH]; intros flat; simpl; [reflexivity|].
  rewrite flatten_entry_dict. simpl. apply IH.
Qed.

Lemma flatten_videos_ok (es : list dict) (flat : dict) :
  for_each flatten_video (map VDict es) flat
  = Ok (fold_left (emit_entry "video_thruplay_watched_actions_" None) es flat).
Proof.
  revert flat. induction es as [|e es IH]; intros flat; simpl; [reflexivity|].
  rewrite flatten_video_dict. simpl. apply IH.
Qed.

Lemma flatten_pairs_ok (prefix : string) (types : option (list string))
      (d flat : dict) :
  for_each (flatten_pair prefix types) d flat
  = Ok (fold_left (emit_pair prefix types) d flat).
Proof.
  apply for_each_pure. intros s [t v] _. unfold flatten_pair, emit_pair. simpl.
  destruct (passes types (VStr t)); reflexivity.
Qed.

Lemma flatten_nested_ok (key : string) (d flat : dict) :
  for_each (flatten_nested key) d flat = Ok (Dict.update flat (nested key d)).
Proof.
  revert flat. induction d as [|[sk sv] d IH]; intros flat; simpl;
    [reflexivity | apply IH].
Qed.

Lemma emit_pairs_emitted (prefix : string) (types : option (list string))
      (d : dict) :
  forall flat,
    fold_left (emit_pair prefix types) d flat
    = Dict.update flat (emitted prefix types d).
Proof.
  unfold Dict.update, emitted.
  induction d as [|[t v] d IH]; intros flat; simpl; [reflexivity|].
  unfold emit_pair at 2. simpl.
  destruct (passes types (VStr t)); simpl; apply IH.
Qed.

(** An entry [{action_type: t, value: v}] acts as the pair [(t, v)]. *)
Lemma emit_entry_of (prefix : string) (types : option (list string))
      (flat : dict) (tv : string * value) :
  emit_entry prefix types flat (entry_dict tv) = emit_pair prefix types flat tv.
Proof. destruct tv as [t v]. reflexivity. Qed.

Lemma emit_entries_of (prefix : string) (types : option (list string))
      (ps : list (string * value)) :
  forall flat,
    fold_left (emit_entry prefix types) (map entry_dict ps) flat
    = fold_left (emit_pair prefix types) ps flat.
Proof.
  induction ps as [|tv ps IH]; intros flat; simpl; [reflexivity|].
  rewrite emit_entry_of. apply IH.
Qed.

(** A key already in the output can be rewritten before or after a run of
    pairs that do not write it. *)
Lemma emit_pairs_set_present (prefix : string) (types : option (list string))
      (k : string) (v : value) (d : dict) :
  (forall t, In t (Dict.keys d) -> (prefix ++ t)%string <> k) ->
  forall g, In k (Dict.keys g) ->
    Dict.set (fold_left (emit_pair prefix types) d g) k v
    = fold_left (emit_pair prefix types) d (Dict.set g k v).
Proof.
  induction d as [|[t1 v1] d IH]; intros Hd g Hk; simpl; [reflexivity|].
  assert (Hd' : forall t, In t (Dict.keys d) -> (prefix ++ t)%string <> k).
  { intros t Ht. apply Hd. right. exact Ht. }
  assert (H1 : (prefix ++ t1)%string <> k) by (apply Hd; left; reflexivity).
  unfold emit_pair at 2 4. simpl.
  destruct (passes types (VStr t1)).
  - rewrite (IH Hd').
    + rewrite dict_set_comm; [reflexivity | congruence | exact Hk].
    + apply dict_keys_set. left. exact Hk.
  - apply (IH Hd'). exact Hk.
Qed.

(** Flattening a mapping after [d[t] = v] is flattening it before and then
    emitting the pair [(t, v)]. *)
Lemma emit_pairs_set (prefix : string) (types : option (list string))
      (t : string) (v : value) (d : dict) :
  Dict.wf d ->
  forall flat,
    fold_left (emit_pair prefix types) (Dict.set d t v) flat
    = emit_pair prefix types (fold_left (emit_pair prefix types) d flat) (t, v).
Proof.
  unfold Dict.wf.
  induction d as [|[t1 v1] d IH]; intros Hwf flat; simpl; [reflexivity|].
  inversion Hwf as [|? ? Hnin Hd]; subst.
  destruct (String.eqb_spec t t1) as [->|Hne]; simpl.
  - unfold emit_pair at 2 3 5. simpl.
    destruct (passes types (VStr t1)); [|reflexivity].
    rewrite emit_pairs_set_present.
    + rewrite dict_set_set. reflexivity.
    + intros t Ht Heq. apply append_inj_l in Heq. subst t. contradiction.
    + apply dict_keys_set. right. reflexivity.
  - apply (IH Hd).
Qed.

Lemma emit_pairs_update (prefix : string) (types : option (list string))
      (ps : list (string * value)) :
  forall d flat, Dict.wf d ->
    fold_left (emit_pair prefix types) (Dict.update d ps) flat
    = fold_left (emit_pair prefix types) ps
                (fold_left (emit_pair prefix types) d flat).
Proof.
  induction ps as [|[t v] ps IH]; intros d flat Hwf; [reflexivity|].
  change (Dict.update d ((t, v) :: ps)) with (Dict.update (Dict.set d t v) ps).
  rewrite IH by (apply dict_set_wf; exact Hwf).
  rewrite emit_pairs_set by exact Hwf. reflexivity.
Qed.

(** The two shapes of a conversions collection emit the same pairs. *)
Lemma emit_pairs_of_pairs (prefix : string) (types : option (list string))
      (ps : list (string * value)) (flat : dict) :
  fold_left (emit_pair prefix types) (Dict.of_pairs ps) flat
  = fold_left (emit_pair prefix types) ps flat.
Proof.
  unfold Dict.of_pairs. rewrite emit_pairs_update; [reflexivity|].
  constructor.
Qed.

(* ================================================================= *)
(** ** One field at a time *)

Lemma flatten_insights_fields (d : dict)
      (action_types action_value_types conversion_types : option (list string)) :
  flatten_insights (VDict d) action_types action_value_types conversion_types
  = for_each
      (flatten_field action_types action_value_types conversion_types) d [].
Proof. reflexivity. Qed.

(** Two fields that act alike on every output act alike inside any record. *)
Lemma flatten_insights_congr (pre post : dict) (kv kv' : string * value)
      (action_types action_value_types conversion_types : option (list string)) :
  (forall flat,
      flatten_field action_types action_value_types conversion_types flat kv
      = flatten_field action_types action_value_types conversion_types flat kv') ->
  flatten_insights (VDict (pre ++ kv :: post))
                   action_types action_value_types conversion_types
  = flatten_insights (VDict (pre ++ kv' :: post))
                     action_types action_value_types conversion_types.
Proof.
  intros Hkv. rewrite !flatten_insights_fields, !for_each_app.
  destruct (for_each
              (flatten_field action_types action_value_types conversion_types)
              pre (@nil (string * value))) as [flat|e];
    simpl; [|reflexivity].
  rewrite Hkv. reflexivity.
Qed.

Lemma flatten_field_entries (c : category)
      (action_types action_value_types conversion_types : option (list string))
      (es : list dict) (flat : dict) :
  flatten_field action_types action_value_types conversion_types flat
                (category_key c, VList (map VDict es))
  = Ok (fold_left
          (emit_entry (category_prefix c)
             (category_filter c action_types action_value_types
                              conversion_types))
          es flat).
Proof.
  destruct c; simpl;
    first [apply flatten_entries_ok | apply flatten_videos_ok].
Qed.

Lemma flatten_field_conversions_dict
      (action_types action_value_types conversion_types : option (list string))
      (d flat : dict) :
  flatten_field action_types action_value_types conversion_types flat
                ("conversions", VDict d)
  = Ok (fold_left (emit_pair "conversion_" conversion_types) d flat).
Proof. simpl. apply flatten_pairs_ok. Qed.

Lemma flatten_field_conversion_values_dict
      (action_types action_value_types conversion_types : option (list string))
      (d flat : dict) :
  flatten_field action_types action_value_types conversion_types flat
                ("conversion_values", VDict d)
  = Ok (fold_left (emit_pair "conversion_value_" conversion_types) d flat).
Proof. simpl. apply flatten_pairs_ok. Qed.

Lemma flatten_field_nested
      (action_types action_value_types conversion_types : option (list string))
      (key : string) (d flat : dict) :
  (key =? "conversions") = false ->
  (key =? "conversion_values") = false ->
  flatten_field action_types action_value_types conversion_types flat
                (key, VDict d)
  = Ok (Dict.update flat (nested key d)).
Proof.
  intros H1 H2. unfold flatten_field. simpl is_list. simpl is_dict.
  rewrite H1, H2, !andb_false_r. simpl. apply flatten_nested_ok.
Qed.

Lemma flatten_field_scalar
      (action_types action_value_types conversion_types : option (list string))
      (key : string) (v : value) (flat : dict) :
  is_scalar v = true ->
  flatten_field action_types action_value_types conversion_types flat (key, v)
  = Ok (if key =? "date_stop" then flat else Dict.set flat key v).
Proof.
  intros Hv. unfold flatten_field.
  destruct v; try discriminate Hv; simpl is_list; simpl is_dict;
    rewrite !andb_false_r; simpl; destruct (key =? "date_stop"); reflexivity.
Qed.

Lemma flatten_field_date_stop
      (action_types action_value_types conversion_types : option (list string))
      (v : value) (flat : dict) :
  is_dict v = false ->
  flatten_field action_types action_value_types conversion_types flat
                ("date_stop", v) = Ok flat.
Proof. intros Hv. destruct v; try discriminate Hv; reflexivity. Qed.

(* ================================================================= *)
(** ** [date_stop] *)

(** C1 (as amended).  A [date_stop] field whose value is not a mapping, a
    scalar or a list, leaves no trace in the output whatever the filters:
    the record flattens as the record without that field does.  A
    mapping-valued [date_stop] is not dropped: the branch for nested
    dictionaries comes first and emits [date_stop_{subkey}] pairs. *)
Theorem date_stop_dropped_unless_mapping
        (action_types action_value_types conversion_types : option (list string)) :
  (forall (v : value) (pre post : dict),
      is_dict v = false ->
      flatten_insights (VDict (pre ++ ("date_stop", v) :: post))
                       action_types action_value_types conversion_types
      = flatten_insights (VDict (pre ++ post))
                         action_types action_value_types conversion_types)
  /\
  (forall (d flat : dict),
      flatten_field action_types action_value_types conversion_types flat
                    ("date_stop", VDict d)
      = Ok (Dict.update flat (nested "date_stop" d))).
Proof.
  split.
  - intros v pre post Hv.
    rewrite !flatten_insights_fields, !for_each_app.
    destruct (for_each
                (flatten_field action_types action_value_types conversion_types)
                pre (@nil (string * value))) as [flat|e];
      cbn [bind for_each]; [|reflexivity].
    rewrite flatten_field_date_stop by exact Hv. reflexivity.
  - intros d flat. apply flatten_field_nested; reflexivity.
Qed.

(* ================================================================= *)
(** ** The two shapes of [conversions] and [conversion_values] *)

(** A mapping written with distinct types is the list of its pairs. *)
Lemma of_pairs_distinct (ps : list (string * value)) :
  NoDup (map fst ps) -> Dict.of_pairs ps = ps.
Proof.
  intros Hnd. unfold Dict.of_pairs. apply (dict_update_fresh ps []). exact Hnd.
Qed.

Lemma flatten_field_shapes (c : category)
      (action_types action_value_types conversion_types : option (list string))
      (ps : list (string * value)) (flat : dict) :
  c = Conversions \/ c = ConversionValues ->
  flatten_field action_types action_value_types conversion_types flat
                (category_key c, VList (map entry_of ps))
  = flatten_field action_types action_value_types conversion_types flat
                  (category_key c, VDict (Dict.of_pairs ps)).
Proof.
  intros Hc.
  replace (map entry_of ps) with (map VDict (map entry_dict ps))
    by (rewrite map_map; reflexivity).
  rewrite flatten_field_entries, emit_entries_of.
  destruct Hc as [-> | ->]; simpl category_key; simpl category_prefix;
    simpl category_filter.
  - rewrite flatten_field_conversions_dict, emit_pairs_of_pairs. reflexivity.
  - rewrite flatten_field_conversion_values_dict, emit_pairs_of_pairs.
    reflexivity.
Qed.

(** C2.  Whatever the pairs [(t_i, v_i)], the surrounding fields and the
    filters, a record whose [conversions] (or [conversion_values]) field is
    the list of entries [{action_type: t_i, value: v_i}] and the same record
    with that field replaced by the mapping [{t_i: v_i}] flatten to the same
    output, or fail alike. *)
Theorem conversions_shapes_indistinguishable
        (ps : list (string * value)) (pre post : dict)
        (action_types action_value_types conversion_types : option (list string)) :
  flatten_insights
    (VDict (pre ++ ("conversions", VList (map entry_of ps)) :: post))
    action_types action_value_types conversion_types
  = flatten_insights
      (VDict (pre ++ ("conversions", VDict (Dict.of_pairs ps)) :: post))
      action_types action_value_types conversion_types
  /\
  flatten_insights
    (VDict (pre ++ ("conversion_values", VList (map entry_of ps)) :: post))
    action_types action_value_types conversion_types
  = flatten_insights
      (VDict (pre ++ ("conversion_values", VDict (Dict.of_pairs ps)) :: post))
      action_types action_value_types conversion_types.
Proof.
  split; apply flatten_insights_congr; intros flat.
  - apply (flatten_field_shapes Conversions). left. reflexivity.
  - apply (flatten_field_shapes ConversionValues). right. reflexivity.
Qed.

(* ================================================================= *)
(** ** Renamed keys *)

Lemma append_not_self (s t : string) (c : ascii) :
  s <> (s ++ String c t)%string.
Proof.
  induction s as [|a s IH]; simpl; [discriminate|].
  intros H. apply IH. congruence.
Qed.

Lemma dict_lookup_in (d : dict) (k : string) (v : value) :
  Dict.wf d -> In (k, v) d -> Dict.lookup k d = Some v.
Proof.
  unfold Dict.wf.
  induction d as [|[k1 v1] d IH]; simpl; intros Hwf Hin; [contradiction|].
  inversion Hwf as [|? ? Hnin Hd]; subst.
  destruct Hin as [Heq|Hin].
  - inversion Heq; subst. rewrite String.eqb_refl. reflexivity.
  - destruct (String.eqb_spec k k1) as [->|Hne].
    + exfalso. apply Hnin. apply (in_map fst) in Hin. exact Hin.
    + apply IH; assumption.
Qed.

Lemma dict_lookup_update_other (l : list (string * value)) (k : string) :
  ~ In k (Dict.keys l) ->
  forall d, Dict.lookup k (Dict.update d l) = Dict.lookup k d.
Proof.
  unfold Dict.update.
  induction l as [|[k1 v1] l IH]; simpl; intros Hk d; [reflexivity|].
  rewrite IH by (intros Hin; apply Hk; right; exact Hin).
  apply dict_lookup_set_neq. intros ->. apply Hk. left. reflexivity.
Qed.

Lemma nested_keys (key : string) (d : dict) :
  Dict.keys (nested key d)
  = map (fun sk => (key ++ "_" ++ sk)%string) (Dict.keys d).
Proof. unfold Dict.keys, nested. rewrite !map_map. reflexivity. Qed.

Lemma nested_wf (key : string) (d : dict) :
  Dict.wf d -> Dict.wf (nested key d).
Proof.
  unfold Dict.wf. rewrite nested_keys.
  induction (Dict.keys d) as [|k ks IH]; simpl; intros Hnd; [constructor|].
  inversion Hnd as [|? ? Hnin Hks]; subst.
  constructor; [|apply IH; exact Hks].
  intros Hin. apply in_map_iff in Hin. destruct Hin as [k' [Heq Hk']].
  apply append_inj_l in Heq. injection Heq as Heq. subst k'.
  contradiction.
Qed.

Lemma nested_in (key sk : string) (sv : value) (d : dict) :
  In (sk, sv) d -> In ((key ++ "_" ++ sk)%string, sv) (nested key d).
Proof.
  intros Hin. unfold nested.
  apply (in_map (fun kv : string * value =>
                   ((key ++ "_" ++ fst kv)%string, snd kv))) in Hin.
  exact Hin.
Qed.

Lemma nested_not_key (key : string) (d : dict) :
  ~ In key (Dict.keys (nested key d)).
Proof.
  rewrite nested_keys. intros Hin. apply in_map_iff in Hin.
  destruct Hin as [sk [Heq _]]. symmetry in Heq.
  exact (append_not_self key sk "_"%char Heq).
Qed.

(* ================================================================= *)
(** ** A mapping under a list-designated key *)

(** C10.  When [actions], [action_values] or
    [video_thruplay_watched_actions] holds a mapping, the field is neither
    passed through under its own key nor dropped: it is flattened as any
    nested object, [{key}_{subkey}] receiving the subvalue for every
    subkey, and the key itself is not written. *)
Theorem mapping_under_list_key_is_nested
        (key : string)
        (action_types action_value_types conversion_types : option (list string))
        (d flat : dict) :
  In key ["actions"; "action_values"; "video_thruplay_watched_actions"] ->
  flatten_field action_types action_value_types conversion_types flat
                (key, VDict d)
  = Ok (Dict.update flat (nested key d))
  /\
  (Dict.wf d ->
   forall sk sv, In (sk, sv) d ->
     Dict.lookup (key ++ "_" ++ sk) (Dict.update flat (nested key d)) = Some sv)
  /\
  Dict.lookup key (Dict.update flat (nested key d)) = Dict.lookup key flat.
Proof.
  intros Hkey. split; [|split].
  - simpl in Hkey.
    destruct Hkey as [<-|[<-|[<-|[]]]]; apply flatten_field_nested; reflexivity.
  - intros Hwf sk sv Hin.
    rewrite dict_lookup_update by (apply nested_wf; exact Hwf).
    rewrite (dict_lookup_in (nested key d) _ sv); [reflexivity | |].
    + apply nested_wf. exact Hwf.
    + apply nested_in. exact Hin.
  - apply dict_lookup_update_other. apply nested_not_key.
Qed.

(* ================================================================= *)
(** ** Defaults of an entry *)

(** C6.  In a list-shaped collection of any of the five categories, an
    entry without [action_type] is emitted under the type ["unknown"], and
    an entry without [value] is emitted with the value [0] (when its type
    passes the category's filter); the field raises nothing. *)
Theorem missing_entry_keys_default
        (c : category)
        (action_types action_value_types conversion_types : option (list string))
        (es1 es2 : list dict) (e flat : dict) :
  let types :=
    category_filter c action_types action_value_types conversion_types in
  let prefix := category_prefix c in
  let before := fold_left (emit_entry prefix types) es1 flat in
  (Dict.lookup "action_type" e = None ->
   flatten_field action_types action_value_types conversion_types flat
                 (category_key c, VList (map VDict (es1 ++ e :: es2)))
   = Ok (fold_left (emit_entry prefix types) es2
           (if passes types (VStr "unknown")
            then Dict.set before (prefix ++ "unknown") (entry_value e)
            else before)))
  /\
  (Dict.lookup "value" e = None ->
   flatten_field action_types action_value_types conversion_types flat
                 (category_key c, VList (map VDict (es1 ++ e :: es2)))
   = Ok (fold_left (emit_entry prefix types) es2
           (if passes types (entry_type e)
            then Dict.set before (prefix ++ py_format (entry_type e)) (VInt 0)
            else before))).
Proof.
  intros types prefix before.
  split; intros Hnone; rewrite flatten_field_entries, fold_left_app; simpl;
    fold types; fold prefix; fold before; f_equal; f_equal;
    unfold emit_entry, entry_type, entry_value; rewrite Hnone; reflexivity.
Qed.

(* ================================================================= *)
(** ** [conversion_values] and its filter *)

Lemma emitted_wf (prefix : string) (types : option (list string)) (d : dict) :
  Dict.wf d -> Dict.wf (emitted prefix types d).
Proof.
  unfold Dict.wf, emitted.
  induction d as [|[t v] d IH]; simpl; intros Hnd; [constructor|].
  inversion Hnd as [|? ? Hnin Hd]; subst.
  destruct (passes types (VStr t)); simpl; [|apply IH; exact Hd].
  constructor; [|apply IH; exact Hd].
  intros Hin. apply in_map_iff in Hin. destruct Hin as [[k' v'] [Heq Hin]].
  simpl in Heq. apply in_map_iff in Hin.
  destruct Hin as [[t' w] [Heq' Hin]]. simpl in Heq'.
  injection Heq' as Hk' _. rewrite <- Hk' in Heq.
  apply append_inj_l in Heq. subst t'.
  apply filter_In in Hin. destruct Hin as [Hin _].
  apply Hnin. apply (in_map fst) in Hin. exact Hin.
Qed.

(** C7.  The output of a [conversion_values] field does not depend on the
    filters of [actions] and [action_values]; in either shape it is
    governed by [conversion_types], the filter of [conversions]: the pairs
    written are those whose type passes it (all of them when it is unset),
    under [conversion_value_{type}]. *)
Theorem conversion_values_shares_conversion_filter
        (action_types action_value_types conversion_types : option (list string)) :
  (forall (action_types' action_value_types' : option (list string))
          (flat : dict) (v : value),
      flatten_field action_types action_value_types conversion_types flat
                    ("conversion_values", v)
      = flatten_field action_types' action_value_types' conversion_types flat
                      ("conversion_values", v))
  /\
  (forall d flat : dict,
      flatten_field action_types action_value_types conversion_types flat
                    ("conversion_values", VDict d)
      = Ok (Dict.update flat (emitted "conversion_value_" conversion_types d))
      /\
      flatten_field action_types action_value_types conversion_types flat
                    ("conversions", VDict d)
      = Ok (Dict.update flat (emitted "conversion_" conversion_types d)))
  /\
  (forall (es : list dict) (flat : dict),
      flatten_field action_types action_value_types conversion_types flat
                    ("conversion_values", VList (map VDict es))
      = Ok (fold_left (emit_entry "conversion_value_" conversion_types) es flat))
  /\
  (forall (ps : list (string * value)) (flat : dict),
      flatten_field action_types action_value_types conversion_types flat
                    ("conversion_values", VList (map entry_of ps))
      = Ok (Dict.update flat (emitted "conversion_value_" conversion_types ps)))
  /\
  (forall d : dict,
      Dict.wf d ->
      flatten_insights (VDict [("conversion_values", VDict d)])
                       action_types action_value_types conversion_types
      = Ok (emitted "conversion_value_" conversion_types d)).
Proof.
  split; [|split; [|split; [|split]]].
  - intros at' avt' flat v. destruct v; reflexivity.
  - intros d flat. split.
    + rewrite flatten_field_conversion_values_dict, emit_pairs_emitted.
      reflexivity.
    + rewrite flatten_field_conversions_dict, emit_pairs_emitted. reflexivity.
  - intros es flat. apply (flatten_field_entries ConversionValues).
  - intros ps flat.
    replace (map entry_of ps) with (map VDict (map entry_dict ps))
      by (rewrite map_map; reflexivity).
    rewrite (flatten_field_entries ConversionValues), emit_entries_of.
    simpl category_prefix. simpl category_filter.
    rewrite emit_pairs_emitted. reflexivity.
  - intros d Hwf. rewrite flatten_insights_fields. cbn [for_each].
    rewrite flatten_field_conversion_values_dict, emit_pairs_emitted.
    cbn [bind for_each]. f_equal.
    apply (dict_update_fresh _ []). simpl. apply emitted_wf. exact Hwf.
Qed.

(* ================================================================= *)
(** ** Records of scalars *)

Lemma without_key_keys (k : string) (d : dict) :
  Dict.keys (without_key k d)
  = filter (fun k' => negb (k' =? k)) (Dict.keys d).
Proof.
  unfold Dict.keys, without_key.
  induction d as [|[k1 v1] d IH]; simpl; [reflexivity|].
  destruct (k1 =? k); simpl; rewrite IH; reflexivity.
Qed.

Lemma without_key_wf (k : string) (d : dict) :
  Dict.wf d -> Dict.wf (without_key k d).
Proof.
  unfold Dict.wf. rewrite without_key_keys. apply NoDup_filter.
Qed.

Lemma without_key_all_scalar (k : string) (d : dict) :
  all_scalar d = true -> all_scalar (without_key k d) = true.
Proof.
  unfold all_scalar, without_key. rewrite !forallb_forall.
  intros H x Hx. apply filter_In in Hx. apply H. apply Hx.
Qed.

Lemma without_key_idem (k : string) (d : dict) :
  without_key k (without_key k d) = without_key k d.
Proof.
  unfold without_key. apply forallb_filter_id. apply forallb_filter.
Qed.

Lemma flatten_scalars
      (action_types action_value_types conversion_types : option (list string))
      (d : dict) :
  all_scalar d = true ->
  forall flat,
    for_each (flatten_field action_types action_value_types conversion_types)
             d flat
    = Ok (Dict.update flat (without_key "date_stop" d)).
Proof.
  unfold all_scalar, Dict.update, without_key.
  induction d as [|[k v] d IH]; intros Hd flat; [reflexivity|].
  simpl in Hd. apply andb_true_iff in Hd. destruct Hd as [Hv Hd].
  cbn [for_each]. rewrite flatten_field_scalar by exact Hv.
  cbn [bind filter fst]. rewrite (IH Hd).
  destruct (k =? "date_stop"); reflexivity.
Qed.

(** C9.  A record whose values are all scalars is returned as it is, less
    the key [date_stop], whatever the filters; flattening the result again
    changes nothing. *)
Theorem flatten_scalar_record_unchanged
        (d : dict)
        (action_types action_value_types conversion_types : option (list string)) :
  Dict.wf d ->
  all_scalar d = true ->
  flatten_insights (VDict d) action_types action_value_types conversion_types
  = Ok (without_key "date_stop" d)
  /\
  (flat <- flatten_insights (VDict d) action_types action_value_types
                            conversion_types ;;
   flatten_insights (VDict flat) action_types action_value_types
                    conversion_types)
  = flatten_insights (VDict d) action_types action_value_types
                     conversion_types.
Proof.
  intros Hwf Hsc.
  assert (Hflat : forall d',
             Dict.wf d' -> all_scalar d' = true ->
             flatten_insights (VDict d') action_types action_value_types
                              conversion_types
             = Ok (without_key "date_stop" d')).
  { intros d' Hwf' Hsc'. rewrite flatten_insights_fields.
    rewrite flatten_scalars by exact Hsc'. f_equal.
    apply (dict_update_fresh _ []). simpl.
    apply without_key_wf. exact Hwf'. }
  split; [apply Hflat; assumption|].
  rewrite (Hflat d Hwf Hsc). cbn [bind].
  rewrite Hflat.
  - rewrite without_key_idem. reflexivity.
  - apply without_key_wf. exact Hwf.
  - apply without_key_all_scalar. exact Hsc.
Qed.

(* ================================================================= *)
(** ** Loops that collect one result per item *)

Lemma collect_ok {A B : Type} (f : A -> result B)
      (body : list B -> A -> result (list B)) (xs : list A) :
  (forall acc x, body acc x = y <- f x ;; Ok (acc ++ [y])) ->
  forall ys acc,
    Forall2 (fun x y => f x = Ok y) xs ys ->
    for_each body xs acc = Ok (acc ++ ys).
Proof.
  intros Hbody. induction xs as [|x xs IH]; intros ys acc H; inversion H; subst.
  - simpl. rewrite app_nil_r. reflexivity.
  - cbn [for_each]. rewrite Hbody.
    match goal with Hx : f x = Ok _ |- _ => rewrite Hx end.
    cbn [bind]. rewrite (IH l'); [|assumption].
    rewrite <- app_assoc. reflexivity.
Qed.

Lemma collect_inv {A B : Type} (f : A -> result B)
      (body : list B -> A -> result (list B)) (xs : list A) :
  (forall acc x, body acc x = y <- f x ;; Ok (acc ++ [y])) ->
  forall acc out,
    for_each body xs acc = Ok out ->
    exists ys, out = acc ++ ys /\ Forall2 (fun x y => f x = Ok y) xs ys.
Proof.
  intros Hbody. induction xs as [|x xs IH]; intros acc out H.
  - simpl in H. injection H as <-. exists []. rewrite app_nil_r.
    split; [reflexivity | constructor].
  - cbn [for_each] in H. rewrite Hbody in H.
    destruct (f x) as [y|e] eqn:Hx; cbn [bind] in H; [|discriminate].
    apply IH in H. destruct H as [ys [-> Hys]].
    exists (y :: ys). rewrite <- app_assoc. split; [reflexivity|].
    constructor; assumption.
Qed.

Lemma for_each_total {A S : Type} (body : S -> A -> result S) (xs : list A) :
  (forall s x, In x xs -> exists s', body s x = Ok s') ->
  forall s, exists s', for_each body xs s = Ok s'.
Proof.
  induction xs as [|x xs IH]; intros Hbody s.
  - exists s. reflexivity.
  - destruct (Hbody s x (or_introl eq_refl)) as [s1 H1].
    cbn [for_each]. rewrite H1. cbn [bind].
    apply IH. intros s' y Hy. apply Hbody. right. exact Hy.
Qed.

(* ================================================================= *)
(** ** [process_insights] *)

Lemma process_insights_list (r : dict) (items : list value)
      (action_types action_value_types conversion_types : option (list string)) :
  Dict.lookup "data" r = Some (VList items) ->
  process_insights (VDict r) action_types action_value_types conversion_types
  = for_each
      (fun flat_data item =>
         flat_item <- flatten_insights item action_types action_value_types
                                       conversion_types ;;
         Ok (flat_data ++ [flat_item]))
      items [].
Proof.
  intros Hdata. unfold process_insights, py_get. rewrite Hdata. cbn [bind].
  destruct items; reflexivity.
Qed.

(** C5.  [process_insights] returns the empty list when [data] is absent or
    empty; on a list it returns exactly the outputs of [flatten_insights]
    on the items, one per item and in their order, each computed from its
    item alone. *)
Theorem process_insights_maps_flatten
        (r : dict)
        (action_types action_value_types conversion_types : option (list string)) :
  (Dict.lookup "data" r = None ->
   process_insights (VDict r) action_types action_value_types conversion_types
   = Ok [])
  /\
  (Dict.lookup "data" r = Some (VList []) ->
   process_insights (VDict r) action_types action_value_types conversion_types
   = Ok [])
  /\
  (forall items out,
      Dict.lookup "data" r = Some (VList items) ->
      (process_insights (VDict r) action_types action_value_types
                        conversion_types = Ok out
       <-> Forall2
             (fun item flat =>
                flatten_insights item action_types action_value_types
                                 conversion_types = Ok flat)
             items out)).
Proof.
  split; [|split].
  - intros Hdata. unfold process_insights, py_get. rewrite Hdata. reflexivity.
  - intros Hdata. unfold process_insights, py_get. rewrite Hdata. reflexivity.
  - intros items out Hdata. rewrite (process_insights_list r items) by exact Hdata.
    split.
    + intros H.
      apply (collect_inv
               (fun item => flatten_insights item action_types
                                             action_value_types conversion_types))
        in H; [|reflexivity].
      destruct H as [ys [-> Hys]]. exact Hys.
    + intros H.
      apply (collect_ok
               (fun item => flatten_insights item action_types
                                             action_value_types conversion_types)
               _ items (fun _ _ => eq_refl) out []).
      exact H.
Qed.

(* ================================================================= *)
(** ** Where exceptions come from *)

Lemma all_dicts (l : list value) :
  forallb is_dict l = true -> exists es, l = map VDict es.
Proof.
  induction l as [|v l IH]; simpl; intros H.
  - exists []. reflexivity.
  - apply andb_true_iff in H. destruct H as [Hv Hl].
    destruct (IH Hl) as [es ->].
    destruct v; try discriminate Hv. exists (d :: es). reflexivity.
Qed.

Lemma is_collection_key_cases (key : string) :
  is_collection_key key = true ->
  exists c, key = category_key c.
Proof.
  unfold is_collection_key. rewrite !orb_true_iff, !String.eqb_eq.
  intros [[[[H|H]|H]|H]|H].
  - exists Actions. exact H.
  - exists ActionValues. exact H.
  - exists Conversions. exact H.
  - exists ConversionValues. exact H.
  - exists VideoThruplay. exact H.
Qed.

Lemma flatten_field_plain_list
      (action_types action_value_types conversion_types : option (list string))
      (key : string) (l : list value) (flat : dict) :
  is_collection_key key = false ->
  flatten_field action_types action_value_types conversion_types flat
                (key, VList l)
  = Ok (if key =? "date_stop" then flat else Dict.set flat key (VList l)).
Proof.
  unfold is_collection_key. rewrite !orb_false_iff.
  intros [[[[H1 H2] H3] H4] H5].
  unfold flatten_field. rewrite H1, H2, H3, H4, H5. simpl.
  destruct (key =? "date_stop"); reflexivity.
Qed.

Lemma flatten_field_total
      (action_types action_value_types conversion_types : option (list string))
      (kv : string * value) :
  well_formed_field kv = true ->
  forall flat, exists flat',
    flatten_field action_types action_value_types conversion_types flat kv
    = Ok flat'.
Proof.
  destruct kv as [key v]. unfold well_formed_field. cbn [fst snd].
  intros Hwf flat.
  destruct v;
    try (rewrite flatten_field_scalar by reflexivity; eexists; reflexivity).
  - destruct (is_collection_key key) eqn:Hck; simpl in Hwf.
    + destruct (all_dicts l Hwf) as [es ->].
      destruct (is_collection_key_cases key Hck) as [c ->].
      rewrite flatten_field_entries. eexists. reflexivity.
    + rewrite flatten_field_plain_list by exact Hck. eexists. reflexivity.
  - destruct (String.eqb_spec key "conversions") as [->|H1].
    { rewrite flatten_field_conversions_dict. eexists. reflexivity. }
    destruct (String.eqb_spec key "conversion_values") as [->|H2].
    { rewrite flatten_field_conversion_values_dict. eexists. reflexivity. }
    rewrite flatten_field_nested by (apply String.eqb_neq; assumption).
    eexists. reflexivity.
Qed.

Lemma flatten_entries_raise (prefix : string) (types : option (list string))
      (l : list value) :
  forallb is_dict l = false ->
  forall flat,
    for_each (flatten_entry prefix types) l flat = Raise AttributeError.
Proof.
  induction l as [|v l IH]; simpl; intros H flat; [discriminate|].
  destruct v; try reflexivity.
  simpl in H. rewrite flatten_entry_dict. cbn [bind]. apply IH. exact H.
Qed.

Lemma flatten_videos_raise (l : list value) :
  forallb is_dict l = false ->
  forall flat, for_each flatten_video l flat = Raise AttributeError.
Proof.
  induction l as [|v l IH]; simpl; intros H flat; [discriminate|].
  destruct v; try reflexivity.
  simpl in H. rewrite flatten_video_dict. cbn [bind]. apply IH. exact H.
Qed.

Lemma flatten_field_raises
      (action_types action_value_types conversion_types : option (list string))
      (kv : string * value) :
  well_formed_field kv = false ->
  forall flat,
    flatten_field action_types action_value_types conversion_types flat kv
    = Raise AttributeError.
Proof.
  destruct kv as [key v]. unfold well_formed_field. cbn [fst snd].
  intros Hwf flat.
  destruct (is_collection_key key) eqn:Hck; [|discriminate Hwf].
  destruct v; try discriminate Hwf. simpl in Hwf.
  destruct (is_collection_key_cases key Hck) as [c ->].
  destruct c; simpl;
    first [apply flatten_entries_raise | apply flatten_videos_raise];
    exact Hwf.
Qed.

Lemma flatten_fields_raise
      (action_types action_value_types conversion_types : option (list string))
      (d : dict) :
  forallb well_formed_field d = false ->
  forall flat,
    for_each (flatten_field action_types action_value_types conversion_types)
             d flat
    = Raise AttributeError.
Proof.
  induction d as [|kv d IH]; simpl; intros H flat; [discriminate|].
  destruct (well_formed_field kv) eqn:Hkv.
  - destruct (flatten_field_total action_types action_value_types
                                  conversion_types kv Hkv flat) as [flat' ->].
    cbn [bind]. apply IH. exact H.
  - rewrite flatten_field_raises by exact Hkv. reflexivity.
Qed.

Lemma flatten_insights_total
      (action_types action_value_types conversion_types : option (list string))
      (item : value) :
  well_formed_record item = true ->
  exists flat,
    flatten_insights item action_types action_value_types conversion_types
    = Ok flat.
Proof.
  unfold well_formed_record. intros H. apply andb_true_iff in H.
  destruct H as [Hd Hf]. destruct item; try discriminate Hd.
  rewrite flatten_insights_fields. apply for_each_total.
  intros s x Hx. apply flatten_field_total.
  simpl in Hf. rewrite forallb_forall in Hf. apply Hf. exact Hx.
Qed.

Lemma flatten_insights_raises
      (action_types action_value_types conversion_types : option (list string))
      (item : value) :
  well_formed_record item = false ->
  flatten_insights item action_types action_value_types conversion_types
  = Raise AttributeError.
Proof.
  unfold well_formed_record. intros H.
  destruct item; try reflexivity.
  simpl in H. rewrite flatten_insights_fields.
  apply flatten_fields_raise. exact H.
Qed.

Lemma process_insights_total
      (action_types action_value_types conversion_types : option (list string))
      (response : value) :
  well_formed_response response = true ->
  exists out,
    process_insights response action_types action_value_types conversion_types
    = Ok out.
Proof.
  unfold well_formed_response. intros H.
  destruct response as [| | | | | |r]; try discriminate H.
  unfold process_insights, py_get.
  destruct (Dict.lookup "data" r) as [data|]; cbn [bind];
    [|exists []; reflexivity].
  destruct (truthy data) eqn:Ht; cbn [negb];
    [|exists []; reflexivity].
  simpl in H. apply andb_true_iff in H. destruct H as [Hl Hall].
  destruct data; try discriminate Hl. cbn [py_iter bind].
  apply for_each_total. intros acc item Hitem.
  destruct (flatten_insights_total action_types action_value_types
                                   conversion_types item) as [flat Hflat].
  { simpl in Hall. rewrite forallb_forall in Hall. apply Hall. exact Hitem. }
  rewrite Hflat. eexists. reflexivity.
Qed.

(* ================================================================= *)
(** ** [convert_numeric_fields] *)

Lemma coerce_key (kv : string * value) : fst (coerce kv) = fst kv.
Proof.
  destruct kv as [key v]. unfold coerce.
  destruct (matches_numeric key); [|reflexivity].
  destruct v; try reflexivity.
  destruct (float_of_string s); reflexivity.
Qed.

Lemma coerce_keys (d : dict) : Dict.keys (map coerce d) = Dict.keys d.
Proof.
  unfold Dict.keys. rewrite map_map. apply map_ext. apply coerce_key.
Qed.

(** The [try] block never lets an exception out: the field is written with
    its coerced value. *)
Lemma convert_field_coerce (converted : dict) (kv : string * value) :
  convert_field converted kv
  = Ok (Dict.set converted (fst (coerce kv)) (snd (coerce kv))).
Proof.
  destruct kv as [key v]. unfold convert_field, coerce, py_float.
  destruct (matches_numeric key); [|reflexivity].
  destruct v; try reflexivity.
  destruct (float_of_string s); reflexivity.
Qed.

Lemma convert_fields_coerce (d : dict) :
  forall converted,
    for_each convert_field d converted
    = Ok (Dict.update converted (map coerce d)).
Proof.
  induction d as [|kv d IH]; intros converted; [reflexivity|].
  cbn [for_each]. rewrite convert_field_coerce. cbn [bind]. apply IH.
Qed.

Lemma convert_numeric_fields_updates (records : list dict) :
  convert_numeric_fields (VList (map VDict records))
  = Ok (map (fun d => Dict.update [] (map coerce d)) records).
Proof.
  unfold convert_numeric_fields. cbn [py_iter bind].
  change (map (fun d => Dict.update [] (map coerce d)) records)
    with ([] ++ map (fun d => Dict.update [] (map coerce d)) records).
  apply (collect_ok
           (fun item => fields <- py_items item ;;
                        for_each convert_field fields [])).
  - intros acc x. destruct (py_items x) as [fields|e]; [|reflexivity].
    cbn [bind]. reflexivity.
  - induction records as [|d records IH]; simpl; constructor.
    + apply convert_fields_coerce.
    + exact IH.
Qed.

Lemma convert_numeric_fields_coerce (records : list dict) :
  Forall Dict.wf records ->
  convert_numeric_fields (VList (map VDict records))
  = Ok (map (map coerce) records).
Proof.
  intros Hwf. rewrite convert_numeric_fields_updates. f_equal.
  apply map_ext_in. intros d Hd.
  apply (dict_update_fresh _ []). simpl.
  change (NoDup (Dict.keys (map coerce d))). rewrite coerce_keys.
  rewrite Forall_forall in Hwf. apply Hwf. exact Hd.
Qed.

(** *** The vocabulary test *)

Lemma prefix_spec (p s : string) :
  String.prefix p s = true <-> exists post, s = (p ++ post)%string.
Proof.
  revert p. induction s as [|b s IH]; intros p; destruct p as [|a p]; simpl.
  - split; [intros _; exists EmptyString; reflexivity | reflexivity].
  - split; [discriminate | intros [post H]; discriminate H].
  - split; [intros _; exists (String b s); reflexivity | reflexivity].
  - destruct (Ascii.ascii_dec a b) as [->|Hne].
    + rewrite IH. split; intros [post H]; exists post; congruence.
    + split; [discriminate | intros [post H]; congruence].
Qed.

Lemma contains_spec (pat s : string) :
  contains pat s = true
  <-> exists pre post, s = (pre ++ pat ++ post)%string.
Proof.
  induction s as [|c s IH]; cbn [contains]; rewrite orb_true_iff, prefix_spec.
  - split.
    + intros [[post H]|H]; [|discriminate].
      exists EmptyString, post. exact H.
    + intros [pre [post H]]. left.
      destruct pre; [exists post; exact H | discriminate H].
  - rewrite IH. split.
    + intros [[post H]|[pre [post H]]].
      * exists EmptyString, post. exact H.
      * exists (String c pre), post. simpl. rewrite H. reflexivity.
    + intros [pre [post H]]. destruct pre as [|a pre].
      * left. exists post. exact H.
      * right. exists pre, post. simpl in H. congruence.
Qed.

Lemma lower_app (a b : string) :
  lower (a ++ b) = (lower a ++ lower b)%string.
Proof. induction a as [|c a IH]; simpl; [|rewrite IH]; reflexivity. Qed.

Lemma lower_split (a b : string) :
  forall s, lower s = (a ++ b)%string ->
  exists s1 s2, s = (s1 ++ s2)%string /\ lower s1 = a /\ lower s2 = b.
Proof.
  induction a as [|c a IH]; intros s H.
  - exists EmptyString, s. auto.
  - destruct s as [|c' s]; simpl in H; [discriminate|].
    injection H as Hc Hs. destruct (IH s Hs) as [s1 [s2 [-> [H1 H2]]]].
    exists (String c' s1), s2. simpl. rewrite Hc, H1. auto.
Qed.

Lemma matches_numeric_spec (key : string) :
  matches_numeric key = true <-> is_candidate key.
Proof.
  unfold matches_numeric, is_candidate. rewrite existsb_exists.
  split; intros [word [Hin H]]; exists word; (split; [exact Hin|]).
  - apply contains_spec in H. destruct H as [pre' [post' H]].
    apply lower_split in H. destruct H as [pre [rest [-> [_ H]]]].
    apply lower_split in H. destruct H as [mid [post [-> [H _]]]].
    exists pre, mid, post. auto.
  - destruct H as [pre [mid [post [-> H]]]]. apply contains_spec.
    exists (lower pre), (lower post). rewrite !lower_app, H. reflexivity.
Qed.

(** C4.  A field is a candidate exactly when its key holds a vocabulary
    word as a substring up to case.  On a batch of records the result is
    the batch with every field coerced: a candidate whose string value
    parses becomes that float, a candidate whose string value does not
    parse keeps the string, and a field that is no candidate or whose value
    is no string is unchanged. *)
Theorem convert_numeric_fields_coerces_candidates (records : list dict) :
  (forall key, matches_numeric key = true <-> is_candidate key)
  /\
  (Forall Dict.wf records ->
   convert_numeric_fields (VList (map VDict records))
   = Ok (map (map coerce) records))
  /\
  (forall key s f,
      is_candidate key -> float_of_string s = Some f ->
      coerce (key, VStr s) = (key, VFloat f))
  /\
  (forall key s,
      is_candidate key -> float_of_string s = None ->
      coerce (key, VStr s) = (key, VStr s))
  /\
  (forall key v, ~ is_candidate key -> coerce (key, v) = (key, v))
  /\
  (forall key v, (forall s, v <> VStr s) -> coerce (key, v) = (key, v)).
Proof.
  split; [apply matches_numeric_spec|].
  split; [apply convert_numeric_fields_coerce|].
  split; [|split; [|split]].
  - intros key s f Hc Hf. apply matches_numeric_spec in Hc.
    unfold coerce. rewrite Hc, Hf. reflexivity.
  - intros key s Hc Hf. apply matches_numeric_spec in Hc.
    unfold coerce. rewrite Hc, Hf. reflexivity.
  - intros key v Hc. unfold coerce.
    destruct (matches_numeric key) eqn:Hm; [|reflexivity].
    exfalso. apply Hc. apply matches_numeric_spec. exact Hm.
  - intros key v Hv. unfold coerce.
    destruct (matches_numeric key); [|reflexivity].
    destruct v; try reflexivity. exfalso. exact (Hv s eq_refl).
Qed.

(** C8.  [convert_numeric_fields] returns as many records as it is given,
    and every output record has the keys of its input record, in the same
    order: no field is added or removed. *)
Theorem convert_numeric_fields_preserves_keys (records : list dict) :
  Forall Dict.wf records ->
  exists out,
    convert_numeric_fields (VList (map VDict records)) = Ok out
    /\ length out = length records
    /\ map Dict.keys out = map Dict.keys records.
Proof.
  intros Hwf. exists (map (map coerce) records).
  split; [apply convert_numeric_fields_coerce; exact Hwf|].
  split; [apply length_map|].
  rewrite map_map. apply map_ext. apply coerce_keys.
Qed.

(* ================================================================= *)
(** ** No exception on well-formed input *)

(** C3 (as amended).  [flatten_insights] returns normally on every
    well-formed record, a mapping whose lists under the five collection
    keys hold mappings only, and raises [AttributeError] on every other
    value; [process_insights] returns normally on every envelope whose
    [data] is absent, falsy or a list of well-formed records; and
    [convert_numeric_fields] returns normally on every list of mappings. *)
Theorem no_exception_on_well_formed_input :
  (forall item action_types action_value_types conversion_types,
      well_formed_record item = true ->
      exists flat,
        flatten_insights item action_types action_value_types conversion_types
        = Ok flat)
  /\
  (forall item action_types action_value_types conversion_types,
      well_formed_record item = false ->
      flatten_insights item action_types action_value_types conversion_types
      = Raise AttributeError)
  /\
  (forall response action_types action_value_types conversion_types,
      well_formed_response response = true ->
      exists out,
        process_insights response action_types action_value_types
                         conversion_types
        = Ok out)
  /\
  (forall records : list dict,
      exists out, convert_numeric_fields (VList (map VDict records)) = Ok out).
Proof.
  split; [|split; [|split]].
  - intros. apply flatten_insights_total. assumption.
  - intros. apply flatten_insights_raises. assumption.
  - intros. apply process_insights_total. assumption.
  - intros records. eexists. apply convert_numeric_fields_updates.
Qed.

(* ================================================================= *)
(** ** The output of [flatten_insights] as one update *)

Lemma dict_update_app (d : dict) (l1 l2 : list (string * value)) :
  Dict.update d (l1 ++ l2) = Dict.update (Dict.update d l1) l2.
Proof. unfold Dict.update. apply fold_left_app. Qed.

Lemma dict_keys_update (l : list (string * value)) (k : string) :
  forall d,
    In k (Dict.keys (Dict.update d l))
    <-> In k (Dict.keys d) \/ In k (Dict.keys l).
Proof using.
  clear py_repr float_of_string.
  assert (Hset : forall (d : dict) k1 v1,
             In k (Dict.keys (Dict.set d k1 v1))
             <-> In k (Dict.keys d) \/ k1 = k).
  { induction d as [|[k' v'] d IH]; intros k1 v1; simpl.
    - tauto.
    - destruct (String.eqb_spec k1 k') as [->|Hne]; simpl.
      + split; [intros H; left; exact H|].
        intros [H|H]; [exact H | left; exact H].
      + rewrite IH. tauto. }
  unfold Dict.update.
  induction l as [|[k1 v1] l IH]; intros d; simpl.
  - tauto.
  - rewrite IH, Hset. tauto.
Qed.

Lemma dict_update_wf (l : list (string * value)) :
  forall d, Dict.wf d -> Dict.wf (Dict.update d l).
Proof using.
  clear py_repr float_of_string.
  assert (Hset : forall (d : dict) k v,
             Dict.wf d -> Dict.wf (Dict.set d k v)).
  { unfold Dict.wf. induction d as [|[k' v'] d IH]; intros k v Hwf; simpl.
    - constructor; [intros [] | constructor].
    - inversion Hwf as [|? ? Hnin Hd]; subst.
      destruct (String.eqb_spec k k') as [->|Hne]; simpl.
      + constructor; assumption.
      + constructor; [|apply IH; exact Hd].
        intros Hin.
        apply (dict_keys_update [(k, v)] k' d) in Hin. simpl in Hin.
        destruct Hin as [Hin|[Heq|[]]]; [exact (Hnin Hin) | exact (Hne Heq)]. }
  unfold Dict.update.
  induction l as [|[k1 v1] l IH]; intros d Hwf; simpl; [exact Hwf|].
  apply IH. apply Hset. exact Hwf.
Qed.

Lemma emit_entries_writes (prefix : string) (types : option (list string))
      (es : list dict) :
  forall flat,
    fold_left (emit_entry prefix types) es flat
    = Dict.update flat (entry_writes prefix types es).
Proof.
  unfold Dict.update, entry_writes.
  induction es as [|e es IH]; intros flat; simpl; [reflexivity|].
  unfold emit_entry at 2.
  destruct (passes types (entry_type e)); simpl; apply IH.
Qed.

Lemma category_of_key (c : category) : category_of (category_key c) = Some c.
Proof. destruct c; reflexivity. Qed.

Lemma category_of_none (key : string) :
  is_collection_key key = false -> category_of key = None.
Proof.
  unfold is_collection_key, category_of. rewrite !orb_false_iff.
  intros [[[[H1 H2] H3] H4] H5]. rewrite H1, H2, H3, H4, H5. reflexivity.
Qed.

Lemma dict_of_VDict (es : list dict) : map dict_of (map VDict es) = es.
Proof. rewrite map_map. simpl. apply map_id. Qed.

Lemma passthrough_update (flat : dict) (key : string) (v : value) :
  Dict.update flat (passthrough key v)
  = if key =? "date_stop" then flat else Dict.set flat key v.
Proof. unfold passthrough. destruct (key =? "date_stop"); reflexivity. Qed.

(** A well-formed field writes its pairs and nothing else. *)
Lemma flatten_field_writes
      (action_types action_value_types conversion_types : option (list string))
      (kv : string * value) (flat : dict) :
  well_formed_field kv = true ->
  flatten_field action_types action_value_types conversion_types flat kv
  = Ok (Dict.update flat
          (field_writes action_types action_value_types conversion_types kv)).
Proof.
  destruct kv as [key v]. unfold well_formed_field. cbn [fst snd].
  intros Hwf.
  destruct v;
    try (rewrite flatten_field_scalar by reflexivity;
         cbn [field_writes]; rewrite passthrough_update; reflexivity).
  - destruct (is_collection_key key) eqn:Hck; simpl in Hwf.
    + destruct (all_dicts l Hwf) as [es ->].
      destruct (is_collection_key_cases key Hck) as [c ->].
      rewrite flatten_field_entries, emit_entries_writes.
      cbn [field_writes]. rewrite category_of_key, dict_of_VDict.
      reflexivity.
    + rewrite flatten_field_plain_list by exact Hck.
      cbn [field_writes]. rewrite (category_of_none key Hck).
      rewrite passthrough_update. reflexivity.
  - cbn [field_writes].
    destruct (String.eqb_spec key "conversions") as [->|H1].
    { rewrite flatten_field_conversions_dict, emit_pairs_emitted.
      reflexivity. }
    destruct (String.eqb_spec key "conversion_values") as [->|H2].
    { rewrite flatten_field_conversion_values_dict, emit_pairs_emitted.
      reflexivity. }
    apply flatten_field_nested; apply String.eqb_neq; assumption.
Qed.

Lemma flatten_fields_writes
      (action_types action_value_types conversion_types : option (list string))
      (d : dict) :
  forallb well_formed_field d = true ->
  forall flat,
    for_each (flatten_field action_types action_value_types conversion_types)
             d flat
    = Ok (Dict.update flat
            (flat_map
               (field_writes action_types action_value_types conversion_types)
               d)).
Proof.
  induction d as [|kv d IH]; intros Hwf flat; [reflexivity|].
  simpl in Hwf. apply andb_true_iff in Hwf. destruct Hwf as [Hkv Hd].
  cbn [for_each flat_map]. rewrite flatten_field_writes by exact Hkv.
  cbn [bind]. rewrite (IH Hd), dict_update_app. reflexivity.
Qed.

Lemma flatten_record_writes
      (d : dict)
      (action_types action_value_types conversion_types : option (list string)) :
  well_formed_record (VDict d) = true ->
  flatten_insights (VDict d) action_types action_value_types conversion_types
  = Ok (Dict.update []
          (flat_map
             (field_writes action_types action_value_types conversion_types)
             d)).
Proof.
  intros Hwf. rewrite flatten_insights_fields.
  apply flatten_fields_writes. exact Hwf.
Qed.

Lemma dict_keys_flat_map {A : Type} (f : A -> list (string * value))
      (xs : list A) (k : string) :
  In k (Dict.keys (flat_map f xs))
  <-> exists x, In x xs /\ In k (Dict.keys (f x)).
Proof using.
  clear py_repr float_of_string.
  unfold Dict.keys. rewrite in_map_iff. split.
  - intros [[k' v] [Hk Hin]]. simpl in Hk. subst k'.
    apply in_flat_map in Hin. destruct Hin as [x [Hx Hin]].
    exists x. split; [exact Hx|]. apply in_map_iff. exists (k, v). auto.
  - intros [x [Hx Hin]]. apply in_map_iff in Hin.
    destruct Hin as [[k' v] [Hk Hin]]. simpl in Hk. subst k'.
    exists (k, v). split; [reflexivity|]. apply in_flat_map. exists x. auto.
Qed.

(** On a well-formed record [flatten_insights] is one dictionary update:
    the fields are read in order, each contributes its list of pairs, and
    the pairs are written one after the other into an empty dictionary.
    The result has no key twice, and its keys are those some field
    writes. *)
Theorem flatten_insights_writes
        (d : dict)
        (action_types action_value_types conversion_types : option (list string)) :
  well_formed_record (VDict d) = true ->
  exists flat,
    flatten_insights (VDict d) action_types action_value_types
                     conversion_types = Ok flat
    /\ flat
       = Dict.update []
           (flat_map
              (field_writes action_types action_value_types conversion_types)
              d)
    /\ Dict.wf flat
    /\ (forall k,
           In k (Dict.keys flat)
           <-> exists kv,
                 In kv d
                 /\ In k (Dict.keys
                            (field_writes action_types action_value_types
                                          conversion_types kv))).
Proof using py_repr.
  clear float_of_string.
  intros Hwf. eexists. split; [apply flatten_record_writes; exact Hwf|].
  split; [reflexivity|]. split.
  - apply dict_update_wf. constructor.
  - intros k. rewrite dict_keys_update, dict_keys_flat_map. simpl. tauto.
Qed.

(** Collisions: when the writes of a record end with a pair for [k] that no
    later write touches, the output holds that pair's value under [k],
    whichever fields wrote [k] before. *)
Theorem flatten_insights_last_write_wins
        (d : dict)
        (action_types action_value_types conversion_types : option (list string))
        (before after : list (string * value)) (k : string) (v : value) :
  well_formed_record (VDict d) = true ->
  flat_map (field_writes action_types action_value_types conversion_types) d
  = before ++ (k, v) :: after ->
  ~ In k (Dict.keys after) ->
  exists flat,
    flatten_insights (VDict d) action_types action_value_types
                     conversion_types = Ok flat
    /\ Dict.lookup k flat = Some v.
Proof.
  intros Hwf Hw Hafter. eexists. split.
  - apply flatten_record_writes. exact Hwf.
  - rewrite Hw, dict_update_app.
    change (Dict.update (Dict.update [] before) ((k, v) :: after))
      with (Dict.update (Dict.set (Dict.update [] before) k v) after).
    rewrite dict_lookup_update_other by exact Hafter.
    apply dict_lookup_set_eq.
Qed.

(** Whatever [flatten_insights] returns is a dictionary: no key twice. *)
Lemma flatten_insights_wf
      (item : value)
      (action_types action_value_types conversion_types : option (list string))
      (flat : dict) :
  flatten_insights item action_types action_value_types conversion_types
  = Ok flat ->
  Dict.wf flat.
Proof.
  intros H.
  destruct (well_formed_record item) eqn:Hwf.
  - destruct item; try discriminate Hwf.
    rewrite flatten_record_writes in H by exact Hwf.
    injection H as <-. apply dict_update_wf. constructor.
  - rewrite flatten_insights_raises in H by exact Hwf. discriminate H.
Qed.

(* ================================================================= *)
(** ** Which keys reach the output *)

Lemma entry_writes_keys (prefix : string) (types : option (list string))
      (es : list dict) (k : string) :
  In k (Dict.keys (entry_writes prefix types es))
  <-> exists e, In e es /\ passes types (entry_type e) = true
                /\ k = (prefix ++ py_format (entry_type e))%string.
Proof using py_repr.
  clear float_of_string.
  unfold Dict.keys, entry_writes. rewrite map_map. simpl.
  rewrite in_map_iff. split.
  - intros [e [Hk Hin]]. apply filter_In in Hin. destruct Hin as [Hin Hp].
    exists e. auto.
  - intros [e [Hin [Hp Hk]]]. exists e. split; [auto|].
    apply filter_In. auto.
Qed.

Lemma emitted_keys (prefix : string) (types : option (list string))
      (d : dict) (k : string) :
  In k (Dict.keys (emitted prefix types d))
  <-> exists t, In t (Dict.keys d) /\ passes types (VStr t) = true
                /\ k = (prefix ++ t)%string.
Proof using.
  clear py_repr float_of_string.
  unfold Dict.keys, emitted. rewrite map_map. simpl.
  rewrite in_map_iff. split.
  - intros [[t v] [Hk Hin]]. apply filter_In in Hin. destruct Hin as [Hin Hp].
    exists t. simpl in *. split; [|auto].
    apply in_map_iff. exists (t, v). auto.
  - intros [t [Hin [Hp Hk]]]. apply in_map_iff in Hin.
    destruct Hin as [[t' v] [Ht Hin]]. simpl in Ht. subst t'.
    exists (t, v). split; [auto|]. apply filter_In. auto.
Qed.

Lemma passthrough_keys (key : string) (v : value) (k : string) :
  In k (Dict.keys (passthrough key v)) <-> k = key /\ key <> "date_stop".
Proof using.
  clear py_repr float_of_string.
  unfold passthrough.
  destruct (String.eqb_spec key "date_stop") as [->|Hne]; simpl.
  - intuition congruence.
  - intuition congruence.
Qed.

Lemma nested_key_date_stop (key sk : string) :
  (key ++ "_" ++ sk)%string = "date_stop" -> key = "date" /\ sk = "stop".
Proof.
  intros H.
  repeat (destruct key as [|? key]; simpl in H;
          [ try discriminate H | injection H as ? H; subst ]).
  - injection H as ->. split; reflexivity.
  - destruct key; discriminate H.
Qed.

Lemma category_prefix_not_date_stop (c : category) (t : string) :
  (category_prefix c ++ t)%string <> "date_stop".
Proof. destruct c; simpl; discriminate. Qed.

Lemma field_writes_date_stop
      (action_types action_value_types conversion_types : option (list string))
      (key : string) (v : value) :
  In "date_stop"
     (Dict.keys (field_writes action_types action_value_types
                              conversion_types (key, v)))
  <-> exists sub, key = "date" /\ v = VDict sub /\ In "stop" (Dict.keys sub).
Proof.
  split.
  - intros Hin. cbn [field_writes] in Hin.
    destruct v;
      try (apply passthrough_keys in Hin; destruct Hin as [<- Hne];
           exfalso; apply Hne; reflexivity).
    + destruct (category_of key) as [c|].
      * apply entry_writes_keys in Hin. destruct Hin as [e [_ [_ Hk]]].
        symmetry in Hk. exfalso.
        exact (category_prefix_not_date_stop c _ Hk).
      * apply passthrough_keys in Hin. destruct Hin as [<- Hne].
        exfalso. apply Hne. reflexivity.
    + destruct (key =? "conversions").
      { apply emitted_keys in Hin. destruct Hin as [t [_ [_ Hk]]].
        discriminate Hk. }
      destruct (key =? "conversion_values").
      { apply emitted_keys in Hin. destruct Hin as [t [_ [_ Hk]]].
        discriminate Hk. }
      rewrite nested_keys in Hin. apply in_map_iff in Hin.
      destruct Hin as [sk [Hk Hsk]]. apply nested_key_date_stop in Hk.
      destruct Hk as [-> ->]. exists d. auto.
  - intros [sub [-> [-> Hin]]]. cbn [field_writes]. simpl.
    rewrite nested_keys. apply in_map_iff. exists "stop". auto.
Qed.

(** The key [date_stop] is in the output of a well-formed record exactly
    when the record has a field [date] holding a mapping with a subkey
    [stop]; in every other case the output is free of it. *)
Theorem flatten_insights_date_stop_key
        (d : dict)
        (action_types action_value_types conversion_types : option (list string)) :
  well_formed_record (VDict d) = true ->
  exists flat,
    flatten_insights (VDict d) action_types action_value_types
                     conversion_types = Ok flat
    /\ (In "date_stop" (Dict.keys flat)
        <-> exists sub, In ("date", VDict sub) d /\ In "stop" (Dict.keys sub)).
Proof.
  intros Hwf. eexists. split; [apply flatten_record_writes; exact Hwf|].
  rewrite dict_keys_update, dict_keys_flat_map. simpl. split.
  - intros [[]|[[key v] [Hin Hk]]].
    apply field_writes_date_stop in Hk. destruct Hk as [sub [-> [-> Hs]]].
    exists sub. auto.
  - intros [sub [Hin Hs]]. right. exists ("date", VDict sub).
    split; [exact Hin|]. apply field_writes_date_stop. exists sub. auto.
Qed.

Lemma field_writes_unfiltered
      (action_types action_value_types conversion_types : option (list string))
      (kv : string * value) (k : string) :
  In k (Dict.keys (field_writes action_types action_value_types
                                conversion_types kv)) ->
  In k (Dict.keys (field_writes None None None kv)).
Proof.
  destruct kv as [key v]. cbn [field_writes].
  destruct v; try (intros H; exact H).
  - destruct (category_of key) as [c|]; [|intros H; exact H].
    rewrite !entry_writes_keys. intros [e [Hin [_ Hk]]].
    exists e. split; [exact Hin|]. split; [|exact Hk].
    destruct c; reflexivity.
  - destruct (key =? "conversions");
      [|destruct (key =? "conversion_values"); [|intros H; exact H]];
      rewrite !emitted_keys; intros [t [Hin [_ Hk]]]; exists t; auto.
Qed.

(** Filters only remove keys: every key of the output under some filters
    is a key of the output with no filter at all. *)
Theorem flatten_insights_filters_only_remove
        (d : dict)
        (action_types action_value_types conversion_types : option (list string)) :
  well_formed_record (VDict d) = true ->
  exists filtered unfiltered,
    flatten_insights (VDict d) action_types action_value_types
                     conversion_types = Ok filtered
    /\ flatten_insights (VDict d) None None None = Ok unfiltered
    /\ forall k, In k (Dict.keys filtered) -> In k (Dict.keys unfiltered).
Proof.
  intros Hwf. do 2 eexists.
  split; [apply flatten_record_writes; exact Hwf|].
  split; [apply flatten_record_writes; exact Hwf|].
  intros k. rewrite !dict_keys_update, !dict_keys_flat_map.
  intros [H|[kv [Hin Hk]]]; [left; exact H|].
  right. exists kv. split; [exact Hin|].
  apply (field_writes_unfiltered _ _ _ kv k Hk).
Qed.

(* ================================================================= *)
(** ** Filters *)

Lemma passes_allow_list (l : list string) (x : value) :
  passes (Some l) x = true -> exists s, x = VStr s /\ In s l.
Proof.
  simpl. destruct x; simpl; try discriminate.
  intros H. apply existsb_exists in H. destruct H as [t [Hin Ht]].
  apply String.eqb_eq in Ht. subst t. exists s. auto.
Qed.

(** With an allow-list [l], a list-shaped collection touches no output key
    other than [{prefix}{t}] for the types [t] of [l]; the same holds for
    the mapping shape of [conversions] and [conversion_values].  An empty
    allow-list therefore extracts nothing, unlike an absent one. *)
Theorem allow_list_bounds_writes
        (c : category)
        (action_types action_value_types conversion_types : option (list string))
        (l : list string) (flat : dict) :
  category_filter c action_types action_value_types conversion_types = Some l ->
  (forall es : list dict,
      exists flat',
        flatten_field action_types action_value_types conversion_types flat
                      (category_key c, VList (map VDict es)) = Ok flat'
        /\ (forall k,
               (forall t, In t l -> k <> (category_prefix c ++ t)%string) ->
               Dict.lookup k flat' = Dict.lookup k flat)
        /\ (l = [] -> flat' = flat))
  /\
  (forall d : dict,
      c = Conversions \/ c = ConversionValues ->
      exists flat',
        flatten_field action_types action_value_types conversion_types flat
                      (category_key c, VDict d) = Ok flat'
        /\ (forall k,
               (forall t, In t l -> k <> (category_prefix c ++ t)%string) ->
               Dict.lookup k flat' = Dict.lookup k flat)
        /\ (l = [] -> flat' = flat)).
Proof.
  intros Hl. split.
  - intros es. eexists. split; [|split].
    + rewrite flatten_field_entries, emit_entries_writes, Hl. reflexivity.
    + intros k Hk. apply dict_lookup_update_other. intros Hin.
      apply entry_writes_keys in Hin. destruct Hin as [e [_ [Hp ->]]].
      apply passes_allow_list in Hp. destruct Hp as [s [Hs Hin]].
      rewrite Hs in Hk. apply (Hk s Hin). reflexivity.
    + intros ->. unfold entry_writes.
      replace (filter (fun e : dict => passes (Some []) (entry_type e)) es)
        with (@nil dict); [reflexivity|].
      induction es as [|e es IH]; simpl; [reflexivity|].
      destruct (entry_type e); simpl; exact IH.
  - intros d Hc.
    assert (Hct : conversion_types = Some l).
    { destruct Hc as [-> | ->]; exact Hl. }
    exists (Dict.update flat (emitted (category_prefix c) (Some l) d)).
    split; [|split].
    + subst conversion_types. destruct Hc as [-> | ->]; simpl category_key.
      * rewrite flatten_field_conversions_dict, emit_pairs_emitted.
        reflexivity.
      * rewrite flatten_field_conversion_values_dict, emit_pairs_emitted.
        reflexivity.
    + intros k Hk. apply dict_lookup_update_other. intros Hin.
      apply emitted_keys in Hin. destruct Hin as [t [_ [Hp ->]]].
      apply passes_allow_list in Hp. destruct Hp as [s [Hs Hin]].
      injection Hs as <-. apply (Hk t Hin). reflexivity.
    + intros ->. unfold emitted.
      replace (filter (fun tv : string * value =>
                         passes (Some []) (VStr (fst tv))) d)
        with (@nil (string * value)); [reflexivity|].
      induction d as [|tv d IH]; simpl; [reflexivity | exact IH].
Qed.

Lemma category_of_some (key : string) (c : category) :
  category_of key = Some c -> key = category_key c.
Proof.
  unfold category_of.
  destruct (String.eqb_spec key "actions") as [->|_];
    [intros H; injection H as <-; reflexivity|].
  destruct (String.eqb_spec key "action_values") as [->|_];
    [intros H; injection H as <-; reflexivity|].
  destruct (String.eqb_spec key "conversions") as [->|_];
    [intros H; injection H as <-; reflexivity|].
  destruct (String.eqb_spec key "conversion_values") as [->|_];
    [intros H; injection H as <-; reflexivity|].
  destruct (String.eqb_spec key "video_thruplay_watched_actions") as [->|_];
    [intros H; injection H as <-; reflexivity|].
  discriminate.
Qed.

Lemma category_of_not_collection (key : string) :
  category_of key = None -> is_collection_key key = false.
Proof.
  unfold category_of, is_collection_key.
  destruct (key =? "actions"); [discriminate|].
  destruct (key =? "action_values"); [discriminate|].
  destruct (key =? "conversions"); [discriminate|].
  destruct (key =? "conversion_values"); [discriminate|].
  destruct (key =? "video_thruplay_watched_actions"); [discriminate|].
  reflexivity.
Qed.

(** A field depends on no filter but its own: changing the filters of the
    other categories changes nothing for it, whatever its value, and a
    field outside the five categories ignores all three filters. *)
Theorem flatten_field_filter_frame
        (action_types action_value_types conversion_types
         action_types' action_value_types' conversion_types'
           : option (list string))
        (flat : dict) (key : string) (v : value) :
  match category_of key with
  | Some c =>
      category_filter c action_types action_value_types conversion_types
      = category_filter c action_types' action_value_types' conversion_types'
  | None => True
  end ->
  flatten_field action_types action_value_types conversion_types flat (key, v)
  = flatten_field action_types' action_value_types' conversion_types' flat
                  (key, v).
Proof.
  destruct (category_of key) as [c|] eqn:Hc.
  - apply category_of_some in Hc. subst key.
    destruct c; simpl; intros H; try rewrite H; destruct v; reflexivity.
  - intros _. apply category_of_not_collection in Hc.
    destruct v; try (rewrite !flatten_field_scalar by reflexivity; reflexivity).
    + rewrite !flatten_field_plain_list by exact Hc. reflexivity.
    + unfold is_collection_key in Hc. rewrite !orb_false_iff in Hc.
      destruct Hc as [[[[_ _] H3] H4] _].
      rewrite !flatten_field_nested by assumption. reflexivity.
Qed.

(* ================================================================= *)
(** ** When the batch functions return *)

Lemma Forall2_in_left {A B : Type} (R : A -> B -> Prop)
      (xs : list A) (ys : list B) (x : A) :
  Forall2 R xs ys -> In x xs -> exists y, In y ys /\ R x y.
Proof.
  induction 1 as [|x' y' xs ys Hxy _ IH]; intros Hin; [contradiction|].
  destruct Hin as [->|Hin].
  - exists y'. split; [left; reflexivity | exact Hxy].
  - destruct (IH Hin) as [y [Hy HR]]. exists y. split; [right|]; assumption.
Qed.

Lemma Forall2_in_right {A B : Type} (R : A -> B -> Prop)
      (xs : list A) (ys : list B) (y : B) :
  Forall2 R xs ys -> In y ys -> exists x, In x xs /\ R x y.
Proof.
  induction 1 as [|x' y' xs ys Hxy _ IH]; intros Hin; [contradiction|].
  destruct Hin as [->|Hin].
  - exists x'. split; [left; reflexivity | exact Hxy].
  - destruct (IH Hin) as [x [Hx HR]]. exists x. split; [right|]; assumption.
Qed.

Lemma flatten_insights_ok_well_formed
      (item : value)
      (action_types action_value_types conversion_types : option (list string))
      (flat : dict) :
  flatten_insights item action_types action_value_types conversion_types
  = Ok flat ->
  well_formed_record item = true.
Proof.
  intros H. destruct (well_formed_record item) eqn:Hwf; [reflexivity|].
  rewrite flatten_insights_raises in H by exact Hwf. discriminate H.
Qed.

Lemma process_insights_ok_well_formed
      (response : value)
      (action_types action_value_types conversion_types : option (list string))
      (out : list dict) :
  process_insights response action_types action_value_types conversion_types
  = Ok out ->
  well_formed_response response = true.
Proof.
  intros H. destruct response as [| | | | | |r]; try discriminate H.
  unfold well_formed_response. unfold process_insights, py_get in H.
  destruct (Dict.lookup "data" r) as [data|]; [|reflexivity].
  cbn [bind] in H. destruct (truthy data) eqn:Ht; [|reflexivity].
  cbn [negb orb] in *.
  destruct data as [| | | |s|l|d]; try discriminate H.
  - destruct s as [|c s]; [discriminate Ht | discriminate H].
  - cbn [py_iter bind] in H. cbn [is_list list_of andb].
    apply (collect_inv
             (fun item => flatten_insights item action_types
                                           action_value_types conversion_types))
      in H; [|reflexivity].
    destruct H as [ys [_ Hys]]. apply forallb_forall. intros item Hitem.
    destruct (Forall2_in_left _ _ _ _ Hys Hitem) as [flat [_ Hflat]].
    apply (flatten_insights_ok_well_formed _ _ _ _ _ Hflat).
  - destruct d as [|[k v] d]; [discriminate Ht | discriminate H].
Qed.

(** [process_insights] returns normally on the well-formed envelopes and on
    no other value: a response that is no mapping, a truthy [data] that is
    no list, or one ill-formed row makes the whole call raise. *)
Theorem process_insights_returns_iff_well_formed
        (response : value)
        (action_types action_value_types conversion_types : option (list string)) :
  (exists out,
      process_insights response action_types action_value_types
                       conversion_types = Ok out)
  <-> well_formed_response response = true.
Proof.
  split; [|apply process_insights_total].
  intros [out H]. apply (process_insights_ok_well_formed _ _ _ _ _ H).
Qed.

Lemma convert_items_raise (l : list value) :
  forallb is_dict l = false ->
  forall acc,
    for_each
      (fun result item =>
         fields <- py_items item ;;
         converted <- for_each convert_field fields [] ;;
         Ok (result ++ [converted]))
      l acc
    = Raise AttributeError.
Proof.
  induction l as [|v l IH]; intros H acc; [discriminate H|].
  cbn [for_each]. destruct v; try reflexivity.
  cbn [py_items bind]. rewrite convert_fields_coerce. cbn [bind].
  apply IH. exact H.
Qed.

(** [convert_numeric_fields] returns normally, with one record per item,
    exactly on the lists whose items are all mappings; a single item of
    another type makes the whole call raise [AttributeError]. *)
Theorem convert_numeric_fields_returns_iff_mappings (l : list value) :
  (forallb is_dict l = true ->
   exists out,
     convert_numeric_fields (VList l) = Ok out /\ length out = length l)
  /\
  (forallb is_dict l = false ->
   convert_numeric_fields (VList l) = Raise AttributeError).
Proof.
  split.
  - intros H. destruct (all_dicts l H) as [es ->].
    eexists. split; [apply convert_numeric_fields_updates|].
    rewrite !length_map. reflexivity.
  - intros H. unfold convert_numeric_fields. cbn [py_iter bind].
    apply convert_items_raise. exact H.
Qed.

(* ================================================================= *)
(** ** Coercion *)

Lemma coerce_idem (kv : string * value) : coerce (coerce kv) = coerce kv.
Proof.
  destruct kv as [key v]. unfold coerce.
  destruct (matches_numeric key) eqn:Hm; [|rewrite Hm; reflexivity].
  destruct v; rewrite ?Hm; try reflexivity.
  destruct (float_of_string s) eqn:Hf; rewrite Hm; [reflexivity|].
  rewrite Hf. reflexivity.
Qed.

Lemma coerce_wf (d : dict) : Dict.wf d -> Dict.wf (map coerce d).
Proof. unfold Dict.wf. rewrite coerce_keys. auto. Qed.

(** Coercing twice is coercing once: a value that became a float is left
    alone, and a string that did not parse does not parse the second
    time. *)
Theorem convert_numeric_fields_idempotent (records : list dict) :
  Forall Dict.wf records ->
  (out <- convert_numeric_fields (rows records) ;;
   convert_numeric_fields (rows out))
  = convert_numeric_fields (rows records).
Proof.
  intros Hwf. unfold rows.
  rewrite (convert_numeric_fields_coerce records Hwf). cbn [bind].
  rewrite convert_numeric_fields_coerce.
  - f_equal. rewrite map_map. apply map_ext. intros d.
    rewrite map_map. apply map_ext. apply coerce_idem.
  - rewrite Forall_forall in *. intros d' Hd'. apply in_map_iff in Hd'.
    destruct Hd' as [d [<- Hd]]. apply coerce_wf. apply Hwf. exact Hd.
Qed.

Lemma matches_numeric_word (pre mid post word : string) :
  In word numeric_patterns -> lower mid = word ->
  matches_numeric (pre ++ mid ++ post) = true.
Proof using.
  clear py_repr float_of_string.
  intros Hin Hlow. apply matches_numeric_spec. exists word.
  split; [exact Hin|]. exists pre, mid, post. auto.
Qed.

Lemma matches_numeric_action (t : string) :
  matches_numeric ("action_" ++ t) = true.
Proof using.
  clear py_repr float_of_string.
  apply (matches_numeric_word "" "action_" t "action_");
    [simpl; tauto | reflexivity].
Qed.

Lemma matches_numeric_conversion (t : string) :
  matches_numeric ("conversion_" ++ t) = matches_numeric t.
Proof. unfold matches_numeric. simpl. reflexivity. Qed.

(** Which keys of [flatten_insights] the coercion looks at: every key
    emitted for [actions], [action_values], [conversion_values] and
    [video_thruplay_watched_actions] is a candidate whatever the type,
    while a [conversions] key is one only when the type itself holds a
    vocabulary word, the prefix [conversion_] holding none. *)
Theorem collection_keys_numeric (c : category) (t : string) :
  matches_numeric (category_prefix c ++ t)
  = match c with
    | Conversions => matches_numeric t
    | _ => true
    end.
Proof using.
  clear py_repr float_of_string.
  destruct c.
  - apply matches_numeric_action.
  - apply (matches_numeric_action ("value_" ++ t)).
  - apply matches_numeric_conversion.
  - apply (matches_numeric_word "conversion_" "value" ("_" ++ t) "value");
      [simpl; tauto | reflexivity].
  - apply (matches_numeric_word "" "video"
             ("_thruplay_watched_actions_" ++ t) "video");
      [simpl; tauto | reflexivity].
Qed.

(* ================================================================= *)
(** ** The insights tool *)

Lemma process_insights_wf
      (response : value)
      (action_types action_value_types conversion_types : option (list string))
      (out : list dict) :
  process_insights response action_types action_value_types conversion_types
  = Ok out ->
  Forall Dict.wf out.
Proof.
  unfold process_insights. intros H.
  destruct (py_get response "data" (VList [])) as [data|e];
    [|discriminate H].
  cbn [bind] in H. destruct (truthy data); cbn [negb] in H.
  - destruct (py_iter data) as [items|e]; [|discriminate H].
    cbn [bind] in H.
    apply (collect_inv
             (fun item => flatten_insights item action_types
                                           action_value_types conversion_types))
      in H; [|reflexivity].
    destruct H as [ys [-> Hys]]. simpl. apply Forall_forall. intros flat Hin.
    destruct (Forall2_in_right _ _ _ _ Hys Hin) as [item [_ Hitem]].
    apply (flatten_insights_wf _ _ _ _ _ Hitem).
  - injection H as <-. constructor.
Qed.

Lemma get_account_insights_flattened (response : value) :
  get_account_insights response true
  = (flats <- process_insights response None None None ;;
     Ok (rows (map (map coerce) flats))).
Proof.
  unfold get_account_insights.
  destruct (process_insights response None None None) as [flats|e] eqn:Hp;
    [|reflexivity].
  cbn [bind]. unfold rows at 1.
  rewrite convert_numeric_fields_coerce; [reflexivity|].
  apply (process_insights_wf _ _ _ _ _ Hp).
Qed.

(** With [flatten_actions] set, [get_account_insights] raises what
    [process_insights] raises and nothing more: the numeric pass adds no
    failure, and the rows returned are the flattened rows with every field
    coerced, one per flattened row and with the same keys. *)
Theorem get_account_insights_pipeline (response : value) :
  get_account_insights response true
  = (flats <- process_insights response None None None ;;
     Ok (rows (map (map coerce) flats)))
  /\
  (forall flats,
      process_insights response None None None = Ok flats ->
      exists out,
        get_account_insights response true = Ok (rows out)
        /\ length out = length flats
        /\ map Dict.keys out = map Dict.keys flats).
Proof.
  split; [apply get_account_insights_flattened|].
  intros flats Hp. exists (map (map coerce) flats).
  split; [rewrite get_account_insights_flattened, Hp; reflexivity|].
  split; [apply length_map|].
  rewrite map_map. apply map_ext. apply coerce_keys.
Qed.

(** The tool returns normally with [flatten_actions] set exactly on the
    well-formed envelopes; the raw mode returns [data] untouched, rows that
    would not flatten included. *)
Theorem get_account_insights_returns_iff_well_formed (response : value) :
  ((exists v, get_account_insights response true = Ok v)
   <-> well_formed_response response = true)
  /\
  (forall r data,
      response = VDict r -> Dict.lookup "data" r = Some data ->
      get_account_insights response false = Ok data).
Proof.
  split.
  - rewrite get_account_insights_flattened. split.
    + intros [v H].
      destruct (process_insights response None None None) as [flats|e] eqn:Hp;
        [|discriminate H].
      apply (process_insights_ok_well_formed _ _ _ _ _ Hp).
    + intros Hwf.
      destruct (process_insights_total None None None response Hwf)
        as [flats Hp].
      rewrite Hp. eexists. reflexivity.
  - intros r data -> Hdata. unfold get_account_insights, py_get.
    rewrite Hdata. reflexivity.
Qed.

(** End to end, the two kinds of counts come back with different types: a
    numeric string under [actions] is returned as a float, the same string
    under [conversions] is returned as a string, unless the conversion type
    itself holds a vocabulary word. *)
Theorem conversion_counts_stay_strings (t s : string) (f : float) :
  matches_numeric t = false ->
  float_of_string s = Some f ->
  get_account_insights
    (VDict [("data", VList [VDict [("conversions", VDict [(t, VStr s)])]])])
    true
  = Ok (rows [[(("conversion_" ++ t)%string, VStr s)]])
  /\
  get_account_insights
    (VDict [("data", VList [VDict [("conversions",
                                    VList [entry_of (t, VStr s)])]])])
    true
  = Ok (rows [[(("conversion_" ++ t)%string, VStr s)]])
  /\
  get_account_insights
    (VDict [("data", VList [VDict [("actions", VList [entry_of (t, VStr s)])]])])
    true
  = Ok (rows [[(("action_" ++ t)%string, VFloat f)]]).
Proof.
  intros Ht Hf. rewrite !get_account_insights_flattened.
  assert (Hconv : coerce (("conversion_" ++ t)%string, VStr s)
                  = (("conversion_" ++ t)%string, VStr s)).
  { unfold coerce. rewrite matches_numeric_conversion, Ht. reflexivity. }
  assert (Hact : coerce (("action_" ++ t)%string, VStr s)
                 = (("action_" ++ t)%string, VFloat f)).
  { unfold coerce. rewrite matches_numeric_action, Hf. reflexivity. }
  split; [|split].
  - change (process_insights
              (VDict [("data",
                       VList [VDict [("conversions", VDict [(t, VStr s)])]])])
              None None None)
      with (@Ok (list dict) [[(("conversion_" ++ t)%string, VStr s)]]).
    cbn [bind map]. rewrite Hconv. reflexivity.
  - change (process_insights
              (VDict [("data",
                       VList [VDict [("conversions",
                                      VList [entry_of (t, VStr s)])]])])
              None None None)
      with (@Ok (list dict) [[(("conversion_" ++ t)%string, VStr s)]]).
    cbn [bind map]. rewrite Hconv. reflexivity.
  - change (process_insights
              (VDict [("data",
                       VList [VDict [("actions",
                                      VList [entry_of (t, VStr s)])]])])
              None None None)
      with (@Ok (list dict) [[(("action_" ++ t)%string, VStr s)]]).
    cbn [bind map]. rewrite Hact. reflexivity.
Qed.

End Processor.

(* ================================================================= *)
(** ** The properties at concrete inputs *)

(** Distinctness of the keys of a dictionary written out in full. *)
Ltac distinct_keys :=
  repeat (constructor; [simpl; intuition discriminate|]); constructor.

Ltac well_formed_dicts :=
  repeat (constructor; [unfold Dict.wf; simpl; distinct_keys|]); constructor.

(** A mapping-valued [date_stop] reaches the output. *)
Lemma date_stop_mapping_not_dropped :
  flatten_insights sample_repr
    (VDict [("date_stop", VDict [("year", VStr "2025")]); ("spend", VStr "10")])
    None None None
  = Ok [("date_stop_year", VStr "2025"); ("spend", VStr "10")]
  /\
  flatten_insights sample_repr
    (VDict [("date_stop", VDict [("year", VStr "2025")]); ("spend", VStr "10")])
    None None None
  <> flatten_insights sample_repr (VDict [("spend", VStr "10")]) None None None.
Proof. split; [reflexivity | discriminate]. Qed.

Lemma date_stop_dropped_unless_mapping_witness :
  is_dict (VStr "2025-01-01") = false
  /\
  flatten_insights sample_repr
    (VDict ([("impressions", VStr "7")]
            ++ ("date_stop", VStr "2025-01-01") :: [("spend", VStr "10")]))
    None (Some ["lead"]) None
  = flatten_insights sample_repr
      (VDict ([("impressions", VStr "7")] ++ [("spend", VStr "10")]))
      None (Some ["lead"]) None.
Proof.
  split; [reflexivity|].
  apply (proj1 (date_stop_dropped_unless_mapping
                  sample_repr None (Some ["lead"]) None)).
  reflexivity.
Defined.

(** A collection entry that is not a mapping is a fatal error of
    [flatten_insights], and of the whole batch in [process_insights]; so is
    a record that is not a mapping in [convert_numeric_fields]. *)
Lemma malformed_entry_raises :
  flatten_insights sample_repr
    (VDict [("spend", VStr "10"); ("actions", VList [VStr "purchase"])])
    None None None
  = Raise AttributeError
  /\
  process_insights sample_repr
    (VDict [("data",
             VList [VDict [("spend", VStr "10")];
                    VDict [("actions", VList [VStr "purchase"])]])])
    None None None
  = Raise AttributeError
  /\
  convert_numeric_fields decimal_float
    (VList [VDict [("spend", VStr "10")]; VStr "spend"])
  = Raise AttributeError.
Proof. repeat split; reflexivity. Qed.

Lemma no_exception_on_well_formed_input_witness :
  (well_formed_record
     (VDict [("spend", VStr "10");
             ("actions", VList [VDict [("value", VStr "5")]])]) = true
   /\
   exists flat,
     flatten_insights sample_repr
       (VDict [("spend", VStr "10");
               ("actions", VList [VDict [("value", VStr "5")]])])
       None None None
     = Ok flat)
  /\
  (well_formed_record (VDict [("actions", VList [VInt 5])]) = false
   /\
   flatten_insights sample_repr (VDict [("actions", VList [VInt 5])])
                    None None None
   = Raise AttributeError)
  /\
  (well_formed_response (VDict sample_response) = true
   /\
   exists out,
     process_insights sample_repr (VDict sample_response) None None None
     = Ok out).
Proof.
  split; [|split].
  - split; [reflexivity|].
    apply (proj1 (no_exception_on_well_formed_input sample_repr decimal_float)).
    reflexivity.
  - split; [reflexivity|].
    apply (proj1 (proj2 (no_exception_on_well_formed_input
                           sample_repr decimal_float))).
    reflexivity.
  - split; [reflexivity|].
    apply (proj1 (proj2 (proj2 (no_exception_on_well_formed_input
                                  sample_repr decimal_float)))).
    reflexivity.
Defined.

Lemma missing_entry_keys_default_witness :
  (Dict.lookup "action_type" [("value", VStr "5")] = None
   /\
   flatten_field sample_repr None None None [("spend", VStr "10")]
     ("actions",
      VList (map VDict ([[("action_type", VStr "lead"); ("value", VStr "12")]]
                        ++ [("value", VStr "5")] :: [])))
   = Ok [("spend", VStr "10"); ("action_lead", VStr "12");
         ("action_unknown", VStr "5")])
  /\
  (Dict.lookup "value" [("action_type", VStr "view")] = None
   /\
   flatten_field sample_repr None None None [("spend", VStr "10")]
     ("video_thruplay_watched_actions",
      VList (map VDict ([] ++ [("action_type", VStr "view")] :: [])))
   = Ok [("spend", VStr "10");
         ("video_thruplay_watched_actions_view", VInt 0)]).
Proof.
  split.
  - split; [reflexivity|].
    apply (proj1 (missing_entry_keys_default sample_repr Actions None None None
                    [[("action_type", VStr "lead"); ("value", VStr "12")]] []
                    [("value", VStr "5")] [("spend", VStr "10")])).
    reflexivity.
  - split; [reflexivity|].
    apply (proj2 (missing_entry_keys_default sample_repr VideoThruplay
                    None None None [] []
                    [("action_type", VStr "view")] [("spend", VStr "10")])).
    reflexivity.
Defined.

Lemma conversion_values_shares_conversion_filter_witness :
  Dict.wf [("schedule_total", VStr "296"); ("find_location_total", VStr "1449")]
  /\
  flatten_insights sample_repr
    (VDict [("conversion_values",
             VDict [("schedule_total", VStr "296");
                    ("find_location_total", VStr "1449")])])
    (Some ["purchase"]) (Some []) (Some ["schedule_total"])
  = Ok [("conversion_value_schedule_total", VStr "296")].
Proof.
  split; [unfold Dict.wf; simpl; distinct_keys|].
  apply (proj2 (proj2 (proj2 (proj2
           (conversion_values_shares_conversion_filter sample_repr
              (Some ["purchase"]) (Some []) (Some ["schedule_total"])))))).
  unfold Dict.wf. simpl. distinct_keys.
Defined.

Lemma flatten_scalar_record_unchanged_witness :
  Dict.wf sample_scalars
  /\
  all_scalar sample_scalars = true
  /\
  flatten_insights sample_repr (VDict sample_scalars) (Some ["lead"]) None None
  = Ok [("campaign_name", VStr "My Campaign"); ("spend", VStr "10");
        ("actions", VInt 3)].
Proof.
  split; [unfold Dict.wf; simpl; distinct_keys|].
  split; [reflexivity|].
  apply (proj1 (flatten_scalar_record_unchanged sample_repr sample_scalars
                  (Some ["lead"]) None None
                  ltac:(unfold Dict.wf; simpl; distinct_keys) eq_refl)).
Defined.

Lemma mapping_under_list_key_is_nested_witness :
  In "actions" ["actions"; "action_values"; "video_thruplay_watched_actions"]
  /\
  Dict.wf [("purchase", VStr "5")]
  /\
  In ("purchase", VStr "5") [("purchase", VStr "5")]
  /\
  flatten_field sample_repr None None None []
                ("actions", VDict [("purchase", VStr "5")])
  = Ok [("actions_purchase", VStr "5")]
  /\
  Dict.lookup "actions_purchase" [("actions_purchase", VStr "5")]
  = Some (VStr "5").
Proof.
  split; [left; reflexivity|].
  split; [unfold Dict.wf; simpl; distinct_keys|].
  split; [left; reflexivity|].
  split.
  - apply (proj1 (mapping_under_list_key_is_nested sample_repr "actions"
                    None None None [("purchase", VStr "5")] []
                    (or_introl eq_refl))).
  - apply (proj1 (proj2 (mapping_under_list_key_is_nested sample_repr "actions"
                           None None None [("purchase", VStr "5")] []
                           (or_introl eq_refl)))
             ltac:(unfold Dict.wf; simpl; distinct_keys)
             "purchase" (VStr "5") (or_introl eq_refl)).
Defined.

Lemma process_insights_maps_flatten_witness :
  (Dict.lookup "data" [("paging", VDict [])] = None
   /\
   process_insights sample_repr (VDict [("paging", VDict [])]) None None None
   = Ok [])
  /\
  (Dict.lookup "data" [("data", VList [])] = Some (VList [])
   /\
   process_insights sample_repr (VDict [("data", VList [])]) None None None
   = Ok [])
  /\
  (Dict.lookup "data" sample_response = Some (VList sample_rows)
   /\
   process_insights sample_repr (VDict sample_response) None None None
   = Ok [[("spend", VStr "10")]; [("action_purchase", VStr "5")]]).
Proof.
  split; [|split].
  - split; [reflexivity|].
    apply (proj1 (process_insights_maps_flatten
                    sample_repr [("paging", VDict [])] None None None)).
    reflexivity.
  - split; [reflexivity|].
    apply (proj1 (proj2 (process_insights_maps_flatten
                           sample_repr [("data", VList [])] None None None))).
    reflexivity.
  - split; [reflexivity|].
    apply (proj2 (proj2 (process_insights_maps_flatten
                           sample_repr sample_response None None None))
             sample_rows _ eq_refl).
    repeat constructor.
Defined.

Lemma convert_numeric_fields_coerces_candidates_witness :
  (Forall Dict.wf sample_batch
   /\
   convert_numeric_fields decimal_float (VList (map VDict sample_batch))
   = Ok [[("spend", VFloat 100.5%float); ("campaign_name", VStr "100")];
         [("CPC", VStr "N/A"); ("clicks", VInt 3)]])
  /\
  (is_candidate "ad_SPEND_usd"
   /\ decimal_float "100.50" = Some 100.5%float
   /\ coerce decimal_float ("ad_SPEND_usd", VStr "100.50")
      = ("ad_SPEND_usd", VFloat 100.5%float))
  /\
  (is_candidate "CPC"
   /\ decimal_float "N/A" = None
   /\ coerce decimal_float ("CPC", VStr "N/A") = ("CPC", VStr "N/A"))
  /\
  (~ is_candidate "campaign_name"
   /\ coerce decimal_float ("campaign_name", VStr "100")
      = ("campaign_name", VStr "100")).
Proof.
  pose proof (convert_numeric_fields_coerces_candidates
                decimal_float sample_batch) as [Hm [Hbatch [Hsome [Hnone [Hno _]]]]].
  assert (Hspend : is_candidate "ad_SPEND_usd").
  { exists "spend". split; [left; reflexivity|].
    exists "ad_", "SPEND", "_usd". split; reflexivity. }
  assert (Hcpc : is_candidate "CPC").
  { exists "cpc". split; [simpl; tauto|].
    exists "", "CPC", "". split; reflexivity. }
  assert (Hname : ~ is_candidate "campaign_name").
  { intros H. apply Hm in H. discriminate H. }
  split; [|split; [|split]].
  - split; [well_formed_dicts|]. apply Hbatch. well_formed_dicts.
  - split; [exact Hspend|]. split; [reflexivity|].
    apply Hsome; [exact Hspend | reflexivity].
  - split; [exact Hcpc|]. split; [reflexivity|].
    apply Hnone; [exact Hcpc | reflexivity].
  - split; [exact Hname|]. apply Hno. exact Hname.
Defined.

Lemma convert_numeric_fields_preserves_keys_witness :
  Forall Dict.wf sample_batch
  /\
  exists out,
    convert_numeric_fields decimal_float (VList (map VDict sample_batch))
    = Ok out
    /\ length out = 2
    /\ map Dict.keys out = [["spend"; "campaign_name"]; ["CPC"; "clicks"]].
Proof.
  split; [well_formed_dicts|].
  apply (convert_numeric_fields_preserves_keys decimal_float sample_batch).
  well_formed_dicts.
Defined.

(* ================================================================= *)
(** ** The examples of the specification *)

Example flatten_actions :
  flatten_insights sample_repr
    (VDict [("actions", VList [entry_of ("purchase", VStr "5");
                               entry_of ("lead", VStr "12")])])
    None None None
  = Ok [("action_purchase", VStr "5"); ("action_lead", VStr "12")].
Proof. reflexivity. Qed.

Example flatten_actions_filtered :
  flatten_insights sample_repr
    (VDict [("actions", VList [entry_of ("purchase", VStr "5");
                               entry_of ("lead", VStr "12")])])
    (Some ["lead"]) None None
  = Ok [("action_lead", VStr "12")].
Proof. reflexivity. Qed.

Example flatten_conversions_both_shapes :
  flatten_insights sample_repr
    (VDict [("conversions", VDict [("schedule_total", VStr "296")])])
    None None None
  = Ok [("conversion_schedule_total", VStr "296")]
  /\
  flatten_insights sample_repr
    (VDict [("conversions", VList [entry_of ("schedule_total", VStr "296")])])
    None None None
  = Ok [("conversion_schedule_total", VStr "296")].
Proof. split; reflexivity. Qed.

(** With a repeated type the later entry wins in both shapes. *)
Example flatten_conversions_repeated_type :
  Dict.of_pairs [("a", VStr "1"); ("b", VStr "2"); ("a", VStr "3")]
  = [("a", VStr "3"); ("b", VStr "2")]
  /\
  flatten_insights sample_repr
    (VDict [("conversions",
             VList (map entry_of
                        [("a", VStr "1"); ("b", VStr "2"); ("a", VStr "3")]))])
    None None None
  = Ok [("conversion_a", VStr "3"); ("conversion_b", VStr "2")].
Proof. split; reflexivity. Qed.

Example flatten_creative :
  flatten_insights sample_repr
    (VDict [("creative", VDict [("id", VStr "1"); ("title", VStr "Ad")])])
    None None None
  = Ok [("creative_id", VStr "1"); ("creative_title", VStr "Ad")].
Proof. reflexivity. Qed.

Example flatten_entry_defaults :
  flatten_insights sample_repr
    (VDict [("actions", VList [VDict []; VDict [("action_type", VInt 7)]])])
    None None None
  = Ok [("action_unknown", VInt 0); ("action_7", VInt 0)].
Proof. reflexivity. Qed.

Example process_insights_empty :
  process_insights sample_repr (VDict []) None None None = Ok []
  /\ process_insights sample_repr (VDict [("data", VList [])]) None None None
     = Ok [].
Proof. split; reflexivity. Qed.

Example convert_numeric_examples :
  convert_numeric_fields decimal_float (VList [VDict [("spend", VStr "100.50")]])
  = Ok [[("spend", VFloat 100.5%float)]]
  /\
  convert_numeric_fields decimal_float (VList [VDict [("spend", VStr "N/A")]])
  = Ok [[("spend", VStr "N/A")]]
  /\
  convert_numeric_fields decimal_float
    (VList [VDict [("campaign_name", VStr "100")]])
  = Ok [[("campaign_name", VStr "100")]].
Proof. repeat split; reflexivity. Qed.

(* ================================================================= *)
(** ** Further properties at concrete inputs *)

Lemma flatten_insights_writes_witness :
  well_formed_record (VDict sample_colliding) = true
  /\
  exists flat,
    flatten_insights sample_repr (VDict sample_colliding) None (Some ["lead"])
                     None = Ok flat
    /\ flat = [("action_purchase", VStr "5"); ("spend", VStr "10");
               ("action_lead", VStr "12")].
Proof.
  split; [reflexivity|].
  destruct (flatten_insights_writes sample_repr sample_colliding
              None (Some ["lead"]) None eq_refl) as [flat [H1 [H2 _]]].
  exists flat. split; [exact H1 | exact H2].
Defined.

Lemma flatten_insights_last_write_wins_witness :
  well_formed_record (VDict sample_colliding) = true
  /\
  flat_map (field_writes sample_repr None None None) sample_colliding
  = [("action_purchase", VStr "1"); ("spend", VStr "10")]
      ++ ("action_purchase", VStr "5") :: [("action_lead", VStr "12")]
  /\
  ~ In "action_purchase" (Dict.keys [("action_lead", VStr "12")])
  /\
  exists flat,
    flatten_insights sample_repr (VDict sample_colliding) None None None
    = Ok flat
    /\ Dict.lookup "action_purchase" flat = Some (VStr "5").
Proof.
  assert (Hafter : ~ In "action_purchase"
                     (Dict.keys [("action_lead", VStr "12")])).
  { simpl. intuition discriminate. }
  split; [reflexivity|]. split; [reflexivity|]. split; [exact Hafter|].
  apply (flatten_insights_last_write_wins sample_repr sample_colliding
           None None None
           [("action_purchase", VStr "1"); ("spend", VStr "10")]
           [("action_lead", VStr "12")]
           "action_purchase" (VStr "5") eq_refl eq_refl Hafter).
Defined.

Lemma flatten_insights_date_stop_key_witness :
  well_formed_record (VDict sample_dated) = true
  /\
  exists flat,
    flatten_insights sample_repr (VDict sample_dated) None None None = Ok flat
    /\ In "date_stop" (Dict.keys flat).
Proof.
  split; [reflexivity|].
  destruct (flatten_insights_date_stop_key sample_repr sample_dated
              None None None eq_refl) as [flat [H1 H2]].
  exists flat. split; [exact H1|]. apply H2.
  exists [("start", VStr "2025-01-01"); ("stop", VStr "2025-01-31")].
  split; [left; reflexivity | right; left; reflexivity].
Defined.

Lemma flatten_insights_filters_only_remove_witness :
  well_formed_record (VDict sample_colliding) = true
  /\
  exists filtered unfiltered,
    flatten_insights sample_repr (VDict sample_colliding) (Some ["lead"])
                     None None = Ok filtered
    /\ flatten_insights sample_repr (VDict sample_colliding) None None None
       = Ok unfiltered
    /\ forall k, In k (Dict.keys filtered) -> In k (Dict.keys unfiltered).
Proof.
  split; [reflexivity|].
  apply (flatten_insights_filters_only_remove sample_repr sample_colliding
           (Some ["lead"]) None None eq_refl).
Defined.

Lemma allow_list_bounds_writes_witness :
  category_filter Conversions None None (Some []) = Some []
  /\
  (Conversions = Conversions \/ Conversions = ConversionValues)
  /\
  (exists flat',
      flatten_field sample_repr None None (Some []) [("spend", VStr "10")]
        (category_key Conversions,
         VList (map VDict [[("action_type", VStr "schedule_total");
                            ("value", VStr "296")]]))
      = Ok flat'
      /\ flat' = [("spend", VStr "10")])
  /\
  (exists flat',
      flatten_field sample_repr None None (Some []) [("spend", VStr "10")]
        (category_key Conversions, VDict [("schedule_total", VStr "296")])
      = Ok flat'
      /\ flat' = [("spend", VStr "10")]).
Proof.
  split; [reflexivity|]. split; [left; reflexivity|].
  destruct (allow_list_bounds_writes sample_repr Conversions
              None None (Some []) [] [("spend", VStr "10")] eq_refl)
    as [Hlist Hdict].
  split.
  - destruct (Hlist [[("action_type", VStr "schedule_total");
                      ("value", VStr "296")]]) as [flat' [H1 [_ H3]]].
    exists flat'. split; [exact H1 | exact (H3 eq_refl)].
  - destruct (Hdict [("schedule_total", VStr "296")] (or_introl eq_refl))
      as [flat' [H1 [_ H3]]].
    exists flat'. split; [exact H1 | exact (H3 eq_refl)].
Defined.

Lemma flatten_field_filter_frame_witness :
  match category_of "actions" with
  | Some c =>
      category_filter c (Some ["lead"]) None None
      = category_filter c (Some ["lead"]) (Some []) (Some ["schedule_total"])
  | None => True
  end
  /\
  flatten_field sample_repr (Some ["lead"]) None None []
    ("actions", VList [VDict [("action_type", VStr "lead");
                              ("value", VStr "12")]])
  = flatten_field sample_repr (Some ["lead"]) (Some [])
      (Some ["schedule_total"]) []
      ("actions", VList [VDict [("action_type", VStr "lead");
                                ("value", VStr "12")]]).
Proof.
  split; [reflexivity|].
  apply (flatten_field_filter_frame sample_repr
           (Some ["lead"]) None None
           (Some ["lead"]) (Some []) (Some ["schedule_total"])
           [] "actions").
  reflexivity.
Defined.

Lemma process_insights_returns_iff_well_formed_witness :
  well_formed_response (VDict sample_response) = true
  /\
  exists out,
    process_insights sample_repr (VDict sample_response) None None None
    = Ok out.
Proof.
  split; [reflexivity|].
  apply (proj2 (process_insights_returns_iff_well_formed
                  sample_repr (VDict sample_response) None None None)).
  reflexivity.
Defined.

Lemma convert_numeric_fields_returns_iff_mappings_witness :
  (forallb is_dict (map VDict sample_batch) = true
   /\
   exists out,
     convert_numeric_fields decimal_float (VList (map VDict sample_batch))
     = Ok out
     /\ length out = length (map VDict sample_batch))
  /\
  (forallb is_dict [VDict [("spend", VStr "10")]; VInt 3] = false
   /\
   convert_numeric_fields decimal_float
     (VList [VDict [("spend", VStr "10")]; VInt 3])
   = Raise AttributeError).
Proof.
  split.
  - split; [reflexivity|].
    apply (proj1 (convert_numeric_fields_returns_iff_mappings
                    decimal_float (map VDict sample_batch))).
    reflexivity.
  - split; [reflexivity|].
    apply (proj2 (convert_numeric_fields_returns_iff_mappings
                    decimal_float [VDict [("spend", VStr "10")]; VInt 3])).
    reflexivity.
Defined.

Lemma convert_numeric_fields_idempotent_witness :
  Forall Dict.wf sample_batch
  /\
  (out <- convert_numeric_fields decimal_float (rows sample_batch) ;;
   convert_numeric_fields decimal_float (rows out))
  = convert_numeric_fields decimal_float (rows sample_batch).
Proof.
  split; [well_formed_dicts|].
  apply (convert_numeric_fields_idempotent decimal_float sample_batch).
  well_formed_dicts.
Defined.

Lemma get_account_insights_pipeline_witness :
  process_insights sample_repr (VDict sample_response) None None None
  = Ok [[("spend", VStr "10")]; [("action_purchase", VStr "5")]]
  /\
  exists out,
    get_account_insights sample_repr decimal_float (VDict sample_response) true
    = Ok (rows out)
    /\ length out = 2
    /\ map Dict.keys out = [["spend"]; ["action_purchase"]].
Proof.
  split; [reflexivity|].
  apply (proj2 (get_account_insights_pipeline
                  sample_repr decimal_float (VDict sample_response))
           [[("spend", VStr "10")]; [("action_purchase", VStr "5")]]).
  reflexivity.
Defined.

Lemma get_account_insights_returns_iff_well_formed_witness :
  (well_formed_response (VDict sample_response) = true
   /\
   exists v,
     get_account_insights sample_repr decimal_float (VDict sample_response)
                          true = Ok v)
  /\
  (Dict.lookup "data" sample_response = Some (VList sample_rows)
   /\
   get_account_insights sample_repr decimal_float (VDict sample_response)
                        false = Ok (VList sample_rows)).
Proof.
  split.
  - split; [reflexivity|].
    apply (proj2 (proj1 (get_account_insights_returns_iff_well_formed
                           sample_repr decimal_float (VDict sample_response)))).
    reflexivity.
  - split; [reflexivity|].
    apply (proj2 (get_account_insights_returns_iff_well_formed
                    sample_repr decimal_float (VDict sample_response))
             sample_response (VList sample_rows) eq_refl eq_refl).
Defined.

Lemma conversion_counts_stay_strings_witness :
  matches_numeric "schedule_total" = false
  /\
  decimal_float "296" = Some 296%float
  /\
  get_account_insights sample_repr decimal_float
    (VDict [("data",
             VList [VDict [("conversions",
                            VDict [("schedule_total", VStr "296")])]])])
    true
  = Ok (rows [[("conversion_schedule_total", VStr "296")]])
  /\
  get_account_insights sample_repr decimal_float
    (VDict [("data",
             VList [VDict [("actions",
                            VList [entry_of ("schedule_total", VStr "296")])]])])
    true
  = Ok (rows [[("action_schedule_total", VFloat 296%float)]]).
Proof.
  split; [reflexivity|]. split; [reflexivity|].
  destruct (conversion_counts_stay_strings sample_repr decimal_float
              "schedule_total" "296" 296%float eq_refl eq_refl)
    as [H1 [_ H3]].
  split; [exact H1 | exact H3].
Defined.
